(** * AIS tracker: capture script and web server

    A shallow embedding of [capture.py] (ingestion of AIS-catcher output into
    the SQLite store, diagnostics, error log) and of [server.py] (vessel
    query, diagnostics aggregate, clean-up), with the properties of the
    design document stated and settled against that embedding.

    Conventions of the embedding.
    - Python values are [pyval]; a finite float is carried as the rational it
      denotes (no arithmetic is done on floats in the modelled paths).
    - The SQLite engine is used through its statements only: a column holds
      the value that was bound to it (column affinity is not modelled), and
      values compare by SQLite's storage-class order.
    - [datetime.utcnow()] is an oracle: the [k]-th reading of the clock is
      [utc k], in microseconds since 0001-01-01T00:00:00; the world counts
      the readings.
    - Strings are byte strings; a character is the code point of the same
      number (Latin-1). *)

From Stdlib Require Import ZArith QArith Qcanon Ascii String List Lia Bool.
From Stdlib Require Import Sorting.Sorted Sorting.Permutation.
From stdpp Require Import base option list strings gmap fin_maps.

Set Warnings "-register-all".
Local Open Scope string_scope.
Local Open Scope list_scope.
Local Open Scope Z_scope.

(** ** Python values *)

Module Py.

Inductive pyval : Type :=
| PyNone
| PyBool (b : bool)
| PyInt (z : Z)
| PyFloat (q : Qc)
| PyStr (s : string)
| PyList (l : list pyval)
| PyDict (d : list (string * pyval)).

(** [bool(v)]: the truth value Python gives [v] in [if v] and [not v]. *)
Definition truthy (v : pyval) : bool :=
  match v with
  | PyNone => false
  | PyBool b => b
  | PyInt z => negb (z =? 0)
  | PyFloat q => negb (bool_decide (q = Q2Qc 0))
  | PyStr s => negb (bool_decide (s = ""))
  | PyList l => match l with [] => false | _ => true end
  | PyDict d => match d with [] => false | _ => true end
  end.

(** [type(v).__name__], as it appears in an AttributeError message. *)
Definition type_name (v : pyval) : string :=
  match v with
  | PyNone => "NoneType"
  | PyBool _ => "bool"
  | PyInt _ => "int"
  | PyFloat _ => "float"
  | PyStr _ => "str"
  | PyList _ => "list"
  | PyDict _ => "dict"
  end.

(** Lookup in the dict that [json.loads] built (keys are unique there; the
    list is searched from the front). *)
Fixpoint assoc (k : string) (d : list (string * pyval)) : option pyval :=
  match d with
  | [] => None
  | (k', v) :: d' => if bool_decide (k' = k) then Some v else assoc k d'
  end.

(** Characters that [str.strip()] removes: the code points below 256 for
    which [str.isspace()] holds. *)
Definition is_space (c : ascii) : bool :=
  let n := Z.of_nat (nat_of_ascii c) in
  ((9 <=? n) && (n <=? 13)) || ((28 <=? n) && (n <=? 32))
  || (n =? 133) || (n =? 160).

Fixpoint lstrip (s : string) : string :=
  match s with
  | String c s' => if is_space c then lstrip s' else s
  | EmptyString => EmptyString
  end.

Fixpoint rstrip (s : string) : string :=
  match s with
  | String c s' =>
      match rstrip s' with
      | EmptyString => if is_space c then EmptyString else String c EmptyString
      | r => String c r
      end
  | EmptyString => EmptyString
  end.

(** [s.strip()] *)
Definition strip (s : string) : string := rstrip (lstrip s).

(** [s.startswith(p)] *)
Fixpoint startswith (p s : string) : bool :=
  match p, s with
  | EmptyString, _ => true
  | String a p', String b s' => bool_decide (a = b) && startswith p' s'
  | String _ _, EmptyString => false
  end.

(** [s.replace(c, '')] for a one-character [c]. *)
Fixpoint remove_char (c : ascii) (s : string) : string :=
  match s with
  | EmptyString => EmptyString
  | String a s' =>
      if bool_decide (a = c) then remove_char c s' else String a (remove_char c s')
  end.

(** Decimal digits of a natural number, most significant first; [fuel]
    bounds the number of digits. *)
Fixpoint digits (fuel : nat) (n : Z) (acc : string) : string :=
  match fuel with
  | O => acc
  | S fuel' =>
      let acc' := String (ascii_of_nat (Z.to_nat (48 + n mod 10))) acc in
      if n <? 10 then acc' else digits fuel' (n / 10) acc'
  end.

(** [str(n)] for an int. *)
Definition str_int (n : Z) : string :=
  if n <? 0 then String "-" (digits (S (Z.to_nat (Z.log2 (- n)))) (- n) "")
  else digits (S (Z.to_nat (Z.log2 n))) n "".

(** [len(s)] in bytes, as [os.path.getsize] counts them. *)
Definition len (s : string) : Z := Z.of_nat (String.length s).

End Py.
Export Py.

(** ** The clock and ISO-8601 rendering *)

Module Clock.

(** Microseconds in a second, a day, and in [timedelta(hours=h)]. *)
Definition US_PER_SECOND : Z := 1000000.
Definition US_PER_DAY : Z := 86400 * US_PER_SECOND.
Definition hours (h : Z) : Z := h * 3600 * US_PER_SECOND.

(** [datetime._DAYS_BEFORE_MONTH] and [datetime._DAYS_IN_MONTH], index 1..12. *)
Definition DAYS_BEFORE_MONTH (m : Z) : Z :=
  nth (Z.to_nat m) [-1; 0; 31; 59; 90; 120; 151; 181; 212; 243; 273; 304; 334] (-1).
Definition DAYS_IN_MONTH (m : Z) : Z :=
  nth (Z.to_nat m) [-1; 31; 28; 31; 30; 31; 30; 31; 31; 30; 31; 30; 31] (-1).

Definition is_leap (y : Z) : bool :=
  (y mod 4 =? 0) && (negb (y mod 100 =? 0) || (y mod 400 =? 0)).

Definition b2z (b : bool) : Z := if b then 1 else 0.

(** [datetime._days_before_year] and [datetime._ymd2ord]: proleptic
    Gregorian ordinal, 0001-01-01 being day 1. *)
Definition days_before_year (y : Z) : Z :=
  let y1 := y - 1 in y1 * 365 + y1 / 4 - y1 / 100 + y1 / 400.
Definition ymd2ord (y m d : Z) : Z :=
  days_before_year y + DAYS_BEFORE_MONTH m + b2z ((2 <? m) && is_leap y) + d.

(** [datetime._ord2ymd], statement for statement. *)
Definition ord2ymd (n : Z) : Z * Z * Z :=
  let n := n - 1 in
  let n400 := n / 146097 in
  let n := n mod 146097 in
  let year := n400 * 400 + 1 in
  let n100 := n / 36524 in
  let n := n mod 36524 in
  let n4 := n / 1461 in
  let n := n mod 1461 in
  let n1 := n / 365 in
  let n := n mod 365 in
  let year := year + n100 * 100 + n4 * 4 + n1 in
  if (n1 =? 4) || (n100 =? 4) then (year - 1, 12, 31)
  else
    let leapyear := (n1 =? 3) && (negb (n4 =? 24) || (n100 =? 3)) in
    let month := Z.shiftr (n + 50) 5 in
    let preceding := DAYS_BEFORE_MONTH month + b2z ((2 <? month) && leapyear) in
    if n <? preceding then
      let month := month - 1 in
      let preceding :=
        preceding - (DAYS_IN_MONTH month + b2z ((month =? 2) && leapyear)) in
      (year, month, n - preceding + 1)
    else (year, month, n - preceding + 1).

(** The instant [datetime(y, m, d, H, M, S, us)] as a clock reading. *)
Definition datetime (y m d H M S us : Z) : Z :=
  (ymd2ord y m d - 1) * US_PER_DAY + ((H * 60 + M) * 60 + S) * US_PER_SECOND + us.

(** ['%0<w>d' % n] for [0 <= n < 10^w]. *)
Fixpoint zero_pad (w : nat) (n : Z) (acc : string) : string :=
  match w with
  | O => acc
  | S w' => zero_pad w' (n / 10) (String (ascii_of_nat (Z.to_nat (48 + n mod 10))) acc)
  end.

(** [t.isoformat()]: [YYYY-MM-DDTHH:MM:SS], followed by [.ffffff] only when
    the microsecond field is not zero. *)
Definition isoformat (t : Z) : string :=
  let '(y, m, d) := ord2ymd (t / US_PER_DAY + 1) in
  let r := t mod US_PER_DAY in
  let secs := r / US_PER_SECOND in
  let us := r mod US_PER_SECOND in
  zero_pad 4 y "" +:+ "-" +:+ zero_pad 2 m "" +:+ "-" +:+ zero_pad 2 d "" +:+ "T"
  +:+ zero_pad 2 (secs / 3600) "" +:+ ":" +:+ zero_pad 2 (secs / 60 mod 60) ""
  +:+ ":" +:+ zero_pad 2 (secs mod 60) ""
  +:+ (if us =? 0 then "" else "." +:+ zero_pad 6 us "").

(** [t.isoformat() + 'Z']: the text stored in the [timestamp],
    [last_updated] and [updated] columns and used as the query cutoff. *)
Definition stamp (t : Z) : string := isoformat t +:+ "Z".

End Clock.
Export Clock.

(** ** Exceptions *)

Module Exc.

(** The exceptions of class [Exception] that the modelled paths can raise. *)
Inductive exn : Type :=
| AttributeError (ty attr : string)   (* attribute lookup on a value of type [ty] *)
| InterfaceError (param : nat)        (* sqlite3: a parameter of unsupported type *)
| OverflowError                       (* sqlite3: an int outside 64 bits *)
| IntegrityError (constraint : string)
| JSONDecodeError (msg : string)      (* json.loads on text that is not JSON *)
| TypeError (msg : string)            (* arithmetic on a value that is no number *)
| Fault (msg : string).               (* any other fault of the host: I/O, locked store *)

Inductive result (A : Type) : Type :=
| Ok (a : A)
| Raise (e : exn).
Arguments Ok {A} a.
Arguments Raise {A} e.

(** Sequencing: the first exception raised ends the computation. *)
Global Instance result_bind : MBind result := fun A B f m =>
  match m with
  | Ok a => f a
  | Raise e => Raise e
  end.

(** [str(e)], in the wording of CPython 3.10. *)
Definition exn_message (e : exn) : string :=
  match e with
  | AttributeError ty attr =>
      "'" +:+ ty +:+ "' object has no attribute '" +:+ attr +:+ "'"
  | InterfaceError i =>
      "Error binding parameter " +:+ str_int (Z.of_nat i) +:+ " - probably unsupported type."
  | OverflowError => "Python int too large to convert to SQLite INTEGER"
  | IntegrityError c => "UNIQUE constraint failed: " +:+ c
  | JSONDecodeError msg => msg
  | TypeError msg => msg
  | Fault msg => msg
  end.

End Exc.
Export Exc.

(** ** The SQLite store *)

Module Sqlite.

(** A stored value: one of SQLite's storage classes (no BLOB is ever bound). *)
Inductive sqlval : Type :=
| SNull
| SInt (z : Z)
| SReal (q : Qc)
| SText (s : string).

(** Binding parameter number [i] of a statement: what the [sqlite3] module
    does with a Python value. *)
Definition bind_param (i : nat) (v : pyval) : result sqlval :=
  match v with
  | PyNone => Ok SNull
  | PyBool b => Ok (SInt (if b then 1 else 0))
  | PyInt z =>
      if (- 2 ^ 63 <=? z) && (z <? 2 ^ 63) then Ok (SInt z) else Raise OverflowError
  | PyFloat q => Ok (SReal q)
  | PyStr s => Ok (SText s)
  | PyList _ | PyDict _ => Raise (InterfaceError i)
  end.

(** The value as Python reads it back from a row. *)
Definition fetch (v : sqlval) : pyval :=
  match v with
  | SNull => PyNone
  | SInt z => PyInt z
  | SReal q => PyFloat q
  | SText s => PyStr s
  end.

(** Comparison of two values by an operator: NULL compares with nothing;
    numbers sort before text; text compares bytewise (BINARY collation). *)
Definition sql_compare (a b : sqlval) : option comparison :=
  match a, b with
  | SNull, _ | _, SNull => None
  | SInt x, SInt y => Some (x ?= y)
  | SInt x, SReal q => Some (Qccompare (Q2Qc (inject_Z x)) q)
  | SReal p, SInt y => Some (Qccompare p (Q2Qc (inject_Z y)))
  | SReal p, SReal q => Some (Qccompare p q)
  | (SInt _ | SReal _), SText _ => Some Lt
  | SText _, (SInt _ | SReal _) => Some Gt
  | SText s, SText t => Some (String.compare s t)
  end.

(** [a = b], [a < b], [a > b] as a WHERE clause reads them (NULL is not true). *)
Definition sql_eq (a b : sqlval) : bool :=
  match sql_compare a b with Some Eq => true | _ => false end.
Definition sql_lt (a b : sqlval) : bool :=
  match sql_compare a b with Some Lt => true | _ => false end.
Definition sql_gt (a b : sqlval) : bool :=
  match sql_compare a b with Some Gt => true | _ => false end.

(** [a IS NOT NULL] *)
Definition is_not_null (a : sqlval) : bool :=
  match a with SNull => false | _ => true end.

(** The order of ORDER BY: as [sql_compare], with NULL before everything. *)
Definition order_le (a b : sqlval) : bool :=
  match a, b with
  | SNull, _ => true
  | _, SNull => false
  | _, _ => negb (sql_gt a b)
  end.

(** The columns of table [vessels], in the order of CREATE TABLE. *)
Inductive column : Type :=
| mmsi | name | latitude | longitude | speed | course | heading | timestamp
| vessel_type | callsign | imo | dimension_bow | dimension_stern
| dimension_port | dimension_starboard | draught | destination | nav_status
| last_updated.

Global Instance column_eq_dec : EqDecision column.
Proof. solve_decision. Defined.

(** A row gives every column a value. *)
Definition row : Type := column -> sqlval.

(** The row that an INSERT starts from: every column NULL. *)
Definition null_row : row := fun _ => SNull.

(** [SET c = v] on one row. *)
Definition set_col (c : column) (v : sqlval) (r : row) : row :=
  fun c' => if decide (c = c') then v else r c'.

(** [SET c1 = v1, c2 = v2, ...] applied to one row, left to right. *)
Definition assign (sets : list (column * sqlval)) (r : row) : row :=
  fold_left (fun r cv => set_col cv.1 cv.2 r) sets r.

(** Binding the parameters of a statement in order, from number [i]. *)
Fixpoint bind_sets (i : nat) (sets : list (column * pyval))
  : result (list (column * sqlval)) :=
  match sets with
  | [] => Ok []
  | (c, v) :: rest =>
      b ← bind_param i v;
      bs ← bind_sets (S i) rest;
      Ok ((c, b) :: bs)
  end.

(** [SELECT mmsi FROM vessels WHERE mmsi = ?] followed by [fetchone()]:
    whether a row came back. *)
Definition select_mmsi (key : pyval) (vs : list row) : result bool :=
  k ← bind_param 0 key;
  Ok (existsb (fun r => sql_eq (r mmsi) k) vs).

(** [UPDATE vessels SET <sets> WHERE mmsi = ?], the key being the last
    parameter. *)
Definition sql_update (sets : list (column * pyval)) (key : pyval) (vs : list row)
  : result (list row) :=
  bs ← bind_sets 0 sets;
  k ← bind_param (length sets) key;
  Ok (map (fun r => if sql_eq (r mmsi) k then assign bs r else r) vs).

(** [INSERT INTO vessels (<columns>) VALUES (<values>)]: the columns not
    named are NULL; the primary key must be new. *)
Definition sql_insert (vals : list (column * pyval)) (vs : list row)
  : result (list row) :=
  bs ← bind_sets 0 vals;
  let r := assign bs null_row in
  if existsb (fun r' => sql_eq (r' mmsi) (r mmsi)) vs
  then Raise (IntegrityError "vessels.mmsi")
  else Ok (vs ++ [r]).

(** The first row of the table with the given key. *)
Definition find_vessel (k : sqlval) (vs : list row) : option row :=
  List.find (fun r => sql_eq (r mmsi) k) vs.

End Sqlite.
Export Sqlite.

(** ** The world the two programs share *)

Module World.

(** The [vessels] table in rowid order, the [diagnostics] table as
    key ↦ (value, updated), the files of the log directory as the sequence
    of texts written to each, and the number of clock readings so far. *)
Record world : Type := mk_world {
  vessels : list row;
  diagnostics : gmap string (string * string);
  files : gmap string (list string);
  ticks : nat
}.

Definition set_vessels (vs : list row) (w : world) : world :=
  mk_world vs (diagnostics w) (files w) (ticks w).
Definition set_diagnostics (d : gmap string (string * string)) (w : world) : world :=
  mk_world (vessels w) d (files w) (ticks w).
Definition set_files (fs : gmap string (list string)) (w : world) : world :=
  mk_world (vessels w) (diagnostics w) fs (ticks w).

(** [os.path.getsize] of a file, in bytes. *)
Definition getsize (f : list string) : Z :=
  fold_right (fun s n => len s + n) 0 f.

(** [os.remove(p)] and [os.rename(src, dst)] on existing files. *)
Definition remove (p : string) (fs : gmap string (list string)) :=
  delete p fs.
Definition rename (src dst : string) (fs : gmap string (list string)) :=
  match fs !! src with
  | Some f => <[dst := f]> (delete src fs)
  | None => fs
  end.

(** [open(p, 'a').write(text)]: the file is created when missing. *)
Definition append (p text : string) (fs : gmap string (list string)) :=
  <[p := default [] (fs !! p) ++ [text]]> fs.

End World.
Export World.

(** ** capture.py *)

Module Capture.

Definition ERROR_LOG : string := "/home/pi/ais-server/errors.log".
Definition MAX_LOG_SIZE : Z := 10 * 1024 * 1024.
Definition NL : string := String (ascii_of_nat 10) "".

Section Capture.

(** The clock, the rendering [str()] gives a float, a list or a dict, and
    [json.loads]: the parts of the Python runtime the script calls. *)
Variable utc : nat -> Z.
Variable repr : pyval -> string.
Variable json_loads : string -> result pyval.

(** [datetime.utcnow()] *)
Definition utcnow (w : world) : Z * world :=
  (utc (ticks w), mk_world (vessels w) (diagnostics w) (files w) (S (ticks w))).

(** [str(v)], also the rendering of [{v}] in an f-string. *)
Definition str (v : pyval) : string :=
  match v with
  | PyStr s => s
  | PyInt n => str_int n
  | PyNone => "None"
  | PyBool true => "True"
  | PyBool false => "False"
  | _ => repr v
  end.

(** The rotation at the head of [log_error]: a log larger than
    [MAX_LOG_SIZE] replaces the backup. *)
Definition rotate (fs : gmap string (list string)) : gmap string (list string) :=
  match fs !! ERROR_LOG with
  | Some f =>
      if MAX_LOG_SIZE <? getsize f then
        let fs :=
          if bool_decide (is_Some (fs !! (ERROR_LOG +:+ ".old")))
          then remove (ERROR_LOG +:+ ".old") fs else fs in
        rename ERROR_LOG (ERROR_LOG +:+ ".old") fs
      else fs
  | None => fs
  end.

(** [log_error(message)]. No file operation of the model fails, so the
    handler of its [try], which only prints to stderr, is never entered. *)
Definition log_error (message : string) (w : world) : world :=
  let fs := rotate (files w) in
  let '(t, w) := utcnow w in
  set_files (append ERROR_LOG ("[" +:+ isoformat t +:+ "] " +:+ message +:+ NL) fs) w.

(** [update_diagnostic(key, value)]: INSERT OR REPLACE of the entry. The
    three parameters bound are strings, so the statement cannot fail here. *)
Definition update_diagnostic (key : string) (value : pyval) (w : world) : world :=
  let '(t, w) := utcnow w in
  set_diagnostics (<[key := (str value, stamp t)]> (diagnostics w)) w.

(** [[(c, data[k])] if k in data else []] *)
Definition present (data : gmap string pyval) (k : string) (c : column)
  : list (column * pyval) :=
  match data !! k with
  | Some v => [(c, v)]
  | None => []
  end.

(** [update_fields] zipped with [update_values], before [last_updated] and
    the key are appended: the SET list of the UPDATE branch. *)
Definition update_fields (data : gmap string pyval) : list (column * pyval) :=
  (match data !! "name" with
   | Some v => if truthy v then [(name, v)] else []
   | None => []
   end)
  ++ present data "latitude" latitude
  ++ present data "longitude" longitude
  ++ present data "speed" speed
  ++ present data "course" course
  ++ present data "heading" heading
  ++ present data "vessel_type" vessel_type
  ++ present data "callsign" callsign
  ++ present data "destination" destination
  ++ present data "nav_status" nav_status.

(** [data.get(k, d)] *)
Definition get (data : gmap string pyval) (k : string) (d : pyval) : pyval :=
  default d (data !! k).

(** The columns and values of the INSERT branch. *)
Definition insert_values (data : gmap string pyval) (key : pyval) (now : string)
  : list (column * pyval) :=
  [ (mmsi, key);
    (name, get data "name" (PyStr ""));
    (latitude, get data "latitude" PyNone);
    (longitude, get data "longitude" PyNone);
    (speed, get data "speed" PyNone);
    (course, get data "course" PyNone);
    (heading, get data "heading" PyNone);
    (timestamp, PyStr now);
    (vessel_type, get data "vessel_type" (PyStr ""));
    (callsign, get data "callsign" (PyStr ""));
    (nav_status, get data "nav_status" (PyStr ""));
    (last_updated, PyStr now) ].

(** The statements of [update_vessel] between the clock reading and the
    commit: look the key up, then UPDATE or INSERT. *)
Definition upsert (data : gmap string pyval) (key : pyval) (now : string)
    (vs : list row) : result (list row) :=
  found ← select_mmsi key vs;
  if found : bool
  then sql_update (update_fields data ++ [(last_updated, PyStr now)]) key vs
  else sql_insert (insert_values data key now) vs.

(** [update_vessel(data)] *)
Definition update_vessel (data : gmap string pyval) (w : world) : world :=
  let key := get data "mmsi" PyNone in
  if negb (truthy key) then w
  else
    let '(t, w) := utcnow w in
    let now := stamp t in
    match upsert data key now (vessels w) with
    | Ok vs => update_diagnostic "last_message_time" (PyStr now) (set_vessels vs w)
    | Raise e =>
        log_error ("Failed to update vessel " +:+ str key +:+ ": " +:+ exn_message e) w
    end.

(** The state of the main loop. *)
Record loop_state : Type := mk_loop {
  st_world : world;
  message_count : Z
}.

(** [if src in data: vessel_data[dst] = data[src]] *)
Definition copy_field (d : list (string * pyval)) (src dst : string)
    (vd : gmap string pyval) : gmap string pyval :=
  match assoc src d with
  | Some v => <[dst := v]> vd
  | None => vd
  end.

(** [if src in data: vessel_data[dst] = data[src].strip()] *)
Definition copy_stripped (d : list (string * pyval)) (src dst : string)
    (vd : gmap string pyval) : result (gmap string pyval) :=
  match assoc src d with
  | Some (PyStr s) => Ok (<[dst := PyStr (strip s)]> vd)
  | Some v => Raise (AttributeError (type_name v) "strip")
  | None => Ok vd
  end.

(** The sparse update built from a decoded record. *)
Definition vessel_data_of (data : pyval) : result (gmap string pyval) :=
  match data with
  | PyDict d =>
      let vd : gmap string pyval := {[ "mmsi" := default PyNone (assoc "mmsi" d) ]} in
      let vd := copy_field d "lat" "latitude" vd in
      let vd := copy_field d "lon" "longitude" vd in
      let vd := copy_field d "speed" "speed" vd in
      let vd := copy_field d "course" "course" vd in
      let vd := copy_field d "heading" "heading" vd in
      vd ← copy_stripped d "shipname" "name" vd;
      let vd := copy_field d "shiptype" "vessel_type" vd in
      vd ← copy_stripped d "callsign" "callsign" vd;
      vd ← copy_stripped d "destination" "destination" vd;
      Ok (copy_field d "status" "nav_status" vd)
  | _ => Raise (AttributeError (type_name data) "get")
  end.

(** The body of the inner [try] for one stripped line. *)
Definition try_body (line : string) (st : loop_state) : result unit * loop_state :=
  match json_loads line ≫= vessel_data_of with
  | Raise e => (Raise e, st)
  | Ok vessel_data =>
      if truthy (get vessel_data "mmsi" PyNone) then
        let w := update_vessel vessel_data (st_world st) in
        let n := message_count st + 1 in
        if n mod 100 =? 0
        then (Ok tt, mk_loop (update_diagnostic "total_messages" (PyInt n) w) n)
        else (Ok tt, mk_loop w n)
      else (Ok tt, st)
  end.

(** One iteration of [for line in process.stdout]. *)
Definition process_line (line : string) (st : loop_state) : result unit * loop_state :=
  let line := strip line in
  if negb (truthy (PyStr line)) || startswith "#" line then (Ok tt, st)
  else
    match try_body line st with
    | (Raise (JSONDecodeError _), st) => (Ok tt, st)
    | (Raise e, st) =>
        (Ok tt, mk_loop (log_error ("Error processing message: " +:+ exn_message e)
                           (st_world st)) (message_count st))
    | (Ok _, st) => (Ok tt, st)
    end.

(** The [for] loop over the decoder's lines; an exception that leaves an
    iteration ends the loop in the handler of the outer [try]. *)
Fixpoint main_loop (lines : list string) (st : loop_state) : loop_state :=
  match lines with
  | [] => st
  | line :: rest =>
      match process_line line st with
      | (Ok _, st) => main_loop rest st
      | (Raise e, st) =>
          let w := log_error ("Fatal error in main loop: " +:+ exn_message e) (st_world st) in
          mk_loop (update_diagnostic "ais_catcher_status"
                     (PyStr ("ERROR: " +:+ exn_message e)) w) (message_count st)
      end
  end.

(** [main()] once the store is initialised, given whether the decoder
    binary is there and what launching it gave; [Some 1] is [sys.exit(1)]. *)
Definition main (binary_present : bool) (launch : result (list string)) (w : world)
  : option Z * world :=
  if negb binary_present then
    let w := log_error "AIS-catcher not found at /home/pi/AIS-catcher/build/AIS-catcher" w in
    (Some 1, update_diagnostic "ais_catcher_status" (PyStr "ERROR: Binary not found") w)
  else
    let w := update_diagnostic "ais_catcher_status" (PyStr "Running") w in
    match launch with
    | Raise e =>
        let w := log_error ("Failed to start AIS-catcher: " +:+ exn_message e) w in
        (Some 1, update_diagnostic "ais_catcher_status"
                   (PyStr ("ERROR: " +:+ exn_message e)) w)
    | Ok lines => (None, st_world (main_loop lines (mk_loop w 0)))
    end.

End Capture.
End Capture.
Export Capture.

(** ** server.py *)

Module Server.

(** [(datetime.utcnow() - timedelta(hours=48)).isoformat() + 'Z'] *)
Definition cutoff (now : Z) : string := stamp (now - hours 48).

(** ORDER BY last_updated DESC: insertion into a list already in that order. *)
Fixpoint insert_desc (r : row) (l : list row) : list row :=
  match l with
  | [] => [r]
  | x :: l' =>
      if order_le (x last_updated) (r last_updated) then r :: l
      else x :: insert_desc r l'
  end.
Definition order_desc (l : list row) : list row := fold_right insert_desc [] l.

(** The WHERE clause of [get_vessels]. *)
Definition recent_with_position (cut : string) (r : row) : bool :=
  is_not_null (r latitude) && is_not_null (r longitude)
  && sql_gt (r last_updated) (SText cut).

(** The SELECT of [get_vessels]: the rows fetched, in order. *)
Definition select_vessels (now : Z) (vs : list row) : list row :=
  order_desc (List.filter (recent_with_position (cutoff now)) vs).

(** [row[c] or d] *)
Definition or_else (v : sqlval) (d : pyval) : pyval :=
  if truthy (fetch v) then fetch v else d.

(** The dict built for one fetched row, before any distance is added. *)
Definition vessel_json (r : row) : list (string * pyval) :=
  [ ("mmsi", fetch (r mmsi));
    ("name", or_else (r name) (PyStr "Unknown"));
    ("latitude", fetch (r latitude));
    ("longitude", fetch (r longitude));
    ("speed", fetch (r speed));
    ("course", fetch (r course));
    ("heading", fetch (r heading));
    ("timestamp", fetch (r last_updated));
    ("vessel_type", or_else (r vessel_type) (PyStr ""));
    ("callsign", or_else (r callsign) (PyStr ""));
    ("imo", or_else (r imo) (PyStr ""));
    ("dimension_bow", fetch (r dimension_bow));
    ("dimension_stern", fetch (r dimension_stern));
    ("dimension_port", fetch (r dimension_port));
    ("dimension_starboard", fetch (r dimension_starboard));
    ("draught", fetch (r draught));
    ("destination", or_else (r destination) (PyStr ""));
    ("nav_status", or_else (r nav_status) (PyStr "")) ].

(** A fetched value as a number, when it is one. *)
Definition number (v : sqlval) : option Qc :=
  match v with
  | SInt z => Some (Q2Qc (inject_Z z))
  | SReal q => Some q
  | _ => None
  end.

Section Vessels.

(** [round(calculate_distance(lat1, lon1, lat2, lon2), 2)] and
    [round(calculate_bearing(lat1, lon1, lat2, lon2), 1)] on numbers: the
    floating-point trigonometry is left to the runtime. *)
Variable distance_nm : Qc -> Qc -> Qc -> Qc -> Qc.
Variable bearing_deg : Qc -> Qc -> Qc -> Qc -> Qc.

(** One of the two on the reference position and the position of a row. A
    position that is text stops the computation: the latitude in
    [math.radians], the longitude in the subtraction. *)
Definition from_reference (f : Qc -> Qc -> Qc -> Qc -> Qc) (my_lat my_lon : Qc)
    (r : row) : result pyval :=
  match number (r latitude), number (r longitude) with
  | Some lat, Some lon => Ok (PyFloat (f my_lat my_lon lat lon))
  | None, _ => Raise (TypeError "must be real number, not str")
  | Some _, None =>
      Raise (TypeError "unsupported operand type(s) for -: 'str' and 'float'")
  end.

(** The entry of the response for one fetched row: distance and bearing are
    added when both coordinates of the reference position were given. *)
Definition vessel_entry (my_lat my_lon : option Qc) (r : row) : result pyval :=
  match my_lat, my_lon with
  | Some la, Some lo =>
      distance ← from_reference distance_nm la lo r;
      bearing ← from_reference bearing_deg la lo r;
      Ok (PyDict (vessel_json r ++ [("distance", distance); ("bearing", bearing)]))
  | _, _ => Ok (PyDict (vessel_json r))
  end.

(** The entries of the rows, in order; the first exception ends the loop. *)
Fixpoint vessel_entries (my_lat my_lon : option Qc) (rows : list row)
  : result (list pyval) :=
  match rows with
  | [] => Ok []
  | r :: rest =>
      v ← vessel_entry my_lat my_lon r;
      vs ← vessel_entries my_lat my_lon rest;
      Ok (v :: vs)
  end.

(** [get_vessels()] called at [now] with the reference position of the
    request, each coordinate given or not: the response, or the exception
    that leaves the handler. *)
Definition get_vessels (my_lat my_lon : option Qc) (now : Z) (w : world)
  : result pyval :=
  vs ← vessel_entries my_lat my_lon (select_vessels now (vessels w));
  Ok (PyList vs).

End Vessels.

(** The WHERE clause of the DELETE in [cleanup_old_data]. *)
Definition stale (cut : string) (r : row) : bool :=
  sql_lt (r last_updated) (SText cut).

(** [cleanup_old_data()] called at [now]: the response and the store after
    the commit; [deleted] is [c.rowcount]. *)
Definition cleanup_old_data (now : Z) (w : world) : pyval * world :=
  let cut := cutoff now in
  let deleted := Z.of_nat (length (List.filter (stale cut) (vessels w))) in
  (PyDict [("deleted", PyInt deleted)],
   set_vessels (List.filter (fun r => negb (stale cut r)) (vessels w)) w).

(** [f.readlines()] in text mode: a line ends at a line feed, a carriage
    return or the pair of them, each read as a line feed. *)
Fixpoint readlines (cur s : string) : list string :=
  match s with
  | EmptyString => if bool_decide (cur = "") then [] else [cur]
  | String c s' =>
      if bool_decide (c = ascii_of_nat 10) then (cur +:+ NL) :: readlines "" s'
      else if bool_decide (c = ascii_of_nat 13) then
        match s' with
        | String c' s'' =>
            if bool_decide (c' = ascii_of_nat 10) then (cur +:+ NL) :: readlines "" s''
            else (cur +:+ NL) :: readlines "" s'
        | EmptyString => [cur +:+ NL]
        end
      else readlines (cur +:+ String c "") s'
  end.

(** [l[-n:]] *)
Definition last_n {A} (n : nat) (l : list A) : list A :=
  drop (length l - n)%nat l.

(** [round(size / (1024 * 1024), 2)], on the exact quotient, ties to even. *)
Definition round_mb (size : Z) : Qc :=
  let n := size * 100 in
  let d := 1024 * 1024 in
  let q := n / d in
  let r := n mod d in
  let q := if (d <? 2 * r) || ((d =? 2 * r) && Z.odd q) then q + 1 else q in
  Q2Qc (Qmake q 100).

(** What the request finds on the host. *)
Record host : Type := mk_host {
  db_size : option Z;      (* size of the store's file, when it exists *)
  lsusb_status : Z         (* exit status of the device enumeration *)
}.

(** The places of [get_diagnostics] where the host can raise. *)
Inductive step : Type :=
| Connect | CountVessels | StatStore | SelectDiagnostics | Enumerate
| ReadClock | ReadLog | Respond.

Section Diagnostics.

(** [datetime.fromisoformat] ([None] for ValueError) and the faults of
    this request. *)
Variable fromisoformat : string -> option Z.
Variable fault : step -> option exn.

Definition at_step {A} (s : step) (a : A) : result A :=
  match fault s with
  | Some e => Raise e
  | None => Ok a
  end.

(** [try: body except Exception as e: handler(e)] *)
Definition try_except {A} (body : result A) (handler : exn -> result A) : result A :=
  match body with
  | Ok a => Ok a
  | Raise e => handler e
  end.

(** [seconds_ago] *)
Definition seconds_since (now : Z) (last_msg_time : string) : result Z :=
  if bool_decide (last_msg_time = "Never") then Ok 999999
  else
    try_except
      (match fromisoformat (remove_char "Z" last_msg_time) with
       | Some t => now ← at_step ReadClock now; Ok (Z.quot (now - t) US_PER_SECOND)
       | None => Raise (Fault "Invalid isoformat string")
       end)
      (fun _ => Ok 999999).

(** [errors]: the last ten lines of the log, stripped. *)
Definition recent_errors (fs : gmap string (list string)) : list string :=
  match fs !! ERROR_LOG with
  | Some f =>
      match fault ReadLog with
      | Some _ => []
      | None => map strip (last_n 10 (readlines "" (String.concat "" f)))
      end
  | None => []
  end.

(** The body of the [try] of [get_diagnostics]. *)
Definition diagnostics_body (h : host) (now : Z) (w : world) : result pyval :=
  _ ← at_step Connect tt;
  vessel_count ← at_step CountVessels
    (Z.of_nat (length (List.filter (fun r => is_not_null (r latitude)) (vessels w))));
  size_mb ← at_step StatStore
    (match db_size h with
     | Some n => PyFloat (round_mb n)
     | None => PyInt 0
     end);
  table ← at_step SelectDiagnostics (fst <$> diagnostics w);
  rtl_sdr_connected ← at_step Enumerate (lsusb_status h =? 0);
  let last_msg_time := default "Never" (table !! "last_message_time") in
  seconds_ago ← seconds_since now last_msg_time;
  let errors := recent_errors (files w) in
  at_step Respond
    (PyDict
       [ ("vessel_count", PyInt vessel_count);
         ("db_size_mb", size_mb);
         ("last_message", PyStr last_msg_time);
         ("seconds_since_message", PyInt seconds_ago);
         ("rtl_sdr_connected", PyBool rtl_sdr_connected);
         ("ais_catcher_status",
          PyStr (default "Unknown" (table !! "ais_catcher_status")));
         ("total_messages",
          match table !! "total_messages" with
          | Some v => PyStr v
          | None => PyInt 0
          end);
         ("recent_errors", PyList (map PyStr (last_n 3 errors))) ]).

(** The response of the [except] clause. *)
Definition error_response (e : exn) : pyval :=
  PyDict
    [ ("error", PyStr (exn_message e));
      ("vessel_count", PyInt 0);
      ("db_size_mb", PyInt 0);
      ("rtl_sdr_connected", PyBool false) ].

(** [get_diagnostics()] called at [now]: the response, or the exception
    that leaves the handler. *)
Definition get_diagnostics (h : host) (now : Z) (w : world) : result pyval :=
  try_except (diagnostics_body h now w) (fun e => Ok (error_response e)).

End Diagnostics.
End Server.
Export Server.

(** * The vocabulary of the properties *)

(** ** The error log *)

(** The backup of the log, and the line [log_error] writes at the [k]-th
    clock reading. *)
Definition BACKUP : string := ERROR_LOG +:+ ".old".
Definition log_line (utc : nat -> Z) (k : nat) (msg : string) : string :=
  "[" +:+ isoformat (utc k) +:+ "] " +:+ msg +:+ NL.

(** ** Binding and assignment *)

(** Whether [sqlite3] can bind the value, and what it stores for it. *)
Definition bindable (v : pyval) : bool :=
  match bind_param 0 v with Ok _ => true | Raise _ => false end.
Definition sql_of (v : pyval) : sqlval :=
  match bind_param 0 v with Ok b => b | Raise _ => SNull end.
Definition bound (sets : list (column * pyval)) : list (column * sqlval) :=
  map (fun cv => (cv.1, sql_of cv.2)) sets.

(** The value the last assignment to [c] in a SET list gives it. *)
Fixpoint last_assigned (c : column) (sets : list (column * sqlval)) : option sqlval :=
  match sets with
  | [] => None
  | (c', v) :: rest =>
      match last_assigned c rest with
      | Some v' => Some v'
      | None => if decide (c' = c) then Some v else None
      end
  end.

(** ** Sparse updates *)

(** The key under which an update carries a column: the ten columns that
    [update_vessel] merges. *)
Definition field_key (c : column) : option string :=
  match c with
  | name => Some "name"
  | latitude => Some "latitude"
  | longitude => Some "longitude"
  | speed => Some "speed"
  | course => Some "course"
  | heading => Some "heading"
  | vessel_type => Some "vessel_type"
  | callsign => Some "callsign"
  | destination => Some "destination"
  | nav_status => Some "nav_status"
  | _ => None
  end.

(** The value an update includes for a column, when it includes one. *)
Definition carried (c : column) (u : gmap string pyval) : option pyval :=
  match field_key c with
  | Some k => u !! k
  | None => None
  end.

(** The value an update makes the UPDATE branch write to a column: as
    [carried], but a name must also be non-empty. *)
Definition effective (c : column) (u : gmap string pyval) : option pyval :=
  match c with
  | name =>
      match u !! "name" with
      | Some v => if truthy v then Some v else None
      | None => None
      end
  | _ => carried c u
  end.

(** The value of the most recent update of a sequence for which [f] gives one. *)
Fixpoint latest (f : gmap string pyval -> option pyval) (us : list (gmap string pyval))
  : option pyval :=
  match us with
  | [] => None
  | u :: rest =>
      match latest f rest with
      | Some v => Some v
      | None => f u
      end
  end.

(** A well-formed update for key [k]: it names the key and every value of
    it is one the store can hold. *)
Definition update_for (k : sqlval) (u : gmap string pyval) : Prop :=
  truthy (get u "mmsi" PyNone) = true
  ∧ sql_of (get u "mmsi" PyNone) = k
  ∧ map_Forall (fun _ v => bindable v = true) u.

(** The row after the UPDATE branch, column by column. *)
Definition merged (u : gmap string pyval) (now : string) (r : row) : row :=
  fun c =>
    match c with
    | last_updated => SText now
    | _ => match effective c u with
           | Some v => sql_of v
           | None => r c
           end
    end.

(** The updates of a sequence applied in order. *)
Definition apply_updates (utc : nat -> Z) (repr : pyval -> string)
    (us : list (gmap string pyval)) (w : world) : world :=
  fold_left (fun w u => update_vessel utc repr u w) us w.

(** The world after the clock has been read once. *)
Definition tick (utc : nat -> Z) (w : world) : world := (utcnow utc w).2.

(** ** The ingestion loop *)

(** A line the loop is to skip: blank or a comment once stripped, or text
    on which [json.loads] raises, or JSON that is not an object, or an
    object whose [mmsi] is missing or empty. *)
Inductive noise (json_loads : string -> result pyval) (line : string) : Prop :=
| noise_blank : strip line = "" → noise json_loads line
| noise_comment : startswith "#" (strip line) = true → noise json_loads line
| noise_not_json e : json_loads (strip line) = Raise e → noise json_loads line
| noise_not_record v :
    json_loads (strip line) = Ok v → (∀ d, v ≠ PyDict d) → noise json_loads line
| noise_no_key d :
    json_loads (strip line) = Ok (PyDict d) →
    truthy (default PyNone (assoc "mmsi" d)) = false →
    noise json_loads line.

(** A line that carries a message: it decodes to a record from which the
    sparse update [vd] is built, and the update names a key. *)
Definition message (json_loads : string -> result pyval) (line : string)
    (vd : gmap string pyval) : Prop :=
  strip line ≠ ""
  ∧ startswith "#" (strip line) = false
  ∧ json_loads (strip line) ≫= vessel_data_of = Ok vd
  ∧ truthy (get vd "mmsi" PyNone) = true.

(** The value of the [total_messages] diagnostic. *)
Definition counter_shown (w : world) : option string :=
  fst <$> diagnostics w !! "total_messages".

(** ** Time stamps *)

(** The two parts of [isoformat]: the date and the time to the second,
    nineteen characters, and the fraction, empty on a whole second. *)
Definition iso_seconds (t : Z) : string :=
  let '(y, m, d) := ord2ymd (t / US_PER_DAY + 1) in
  let secs := t mod US_PER_DAY / US_PER_SECOND in
  zero_pad 4 y "" +:+ "-" +:+ zero_pad 2 m "" +:+ "-" +:+ zero_pad 2 d "" +:+ "T"
  +:+ zero_pad 2 (secs / 3600) "" +:+ ":" +:+ zero_pad 2 (secs / 60 mod 60) ""
  +:+ ":" +:+ zero_pad 2 (secs mod 60) "".
Definition iso_fraction (t : Z) : string :=
  let us := t mod US_PER_DAY mod US_PER_SECOND in
  if us =? 0 then "" else "." +:+ zero_pad 6 us "".

(** ** The vessel query *)

(** Descending order of last_updated, as ORDER BY reads the column. *)
Definition newer_first (x y : row) : Prop :=
  order_le (y last_updated) (x last_updated) = true.

(** * Worked inputs *)

(** A clock that reads 2024-01-05 12:00:00.25 and then advances one second
    a reading; one that always reads 2024-01-03 12:00:00, a whole second;
    and one that always reads half a second past it. *)
Definition demo_clock (k : nat) : Z :=
  datetime 2024 1 5 12 0 0 250000 + Z.of_nat k * US_PER_SECOND.
Definition whole_second_clock (k : nat) : Z := datetime 2024 1 3 12 0 0 0.
Definition half_second_clock (k : nat) : Z := datetime 2024 1 3 12 0 0 500000.

(** A rendering for the values [str] leaves to the runtime. *)
Definition demo_repr (v : pyval) : string := "<" +:+ type_name v +:+ ">".

(** [fromisoformat] on the one text the worked diagnostics request needs. *)
Definition demo_fromisoformat (s : string) : option Z :=
  if bool_decide (s = "2024-01-05T12:00:00.250000")
  then Some (datetime 2024 1 5 12 0 0 250000)
  else None.

(** A store with one vessel, and an empty one. *)
Definition demo_key : sqlval := SInt 244660000.
Definition demo_row : row :=
  assign [ (mmsi, demo_key); (name, SText "EEMSLIFT"); (latitude, SReal (Q2Qc 52));
           (longitude, SReal (Q2Qc 4)); (callsign, SText "PBXY");
           (timestamp, SText "2024-01-05T11:00:00.125000Z");
           (last_updated, SText "2024-01-05T11:00:00.125000Z") ] null_row.
Definition demo_world : world := mk_world [demo_row] ∅ ∅ 0.
Definition empty_world : world := mk_world [] ∅ ∅ 0.

(** Updates for that vessel: a position, a name, one whose name and
    callsign are empty, and a destination. *)
Definition position_update : gmap string pyval :=
  <["latitude" := PyFloat (Q2Qc 10)]> (<["longitude" := PyFloat (Q2Qc 20)]>
    {[ "mmsi" := PyInt 244660000 ]}).
Definition name_update : gmap string pyval :=
  <["name" := PyStr "TEST VESSEL"]> {[ "mmsi" := PyInt 244660000 ]}.
Definition empty_name_update : gmap string pyval :=
  <["name" := PyStr ""]> (<["callsign" := PyStr ""]> {[ "mmsi" := PyInt 244660000 ]}).
Definition destination_update : gmap string pyval :=
  <["destination" := PyStr "ROTTERDAM"]> {[ "mmsi" := PyInt 244660000 ]}.

(** A log of 10241 blocks of 1 KiB, one block over the threshold, beside
    an older backup. *)
Definition KIB_BLOCK : string :=
  String.concat "" (repeat "0123456789abcdef" 64).
Definition big_log : list string := repeat KIB_BLOCK (Z.to_nat 10241).
Definition big_log_world : world :=
  mk_world [] ∅ (<[BACKUP := ["old backup"]]> {[ ERROR_LOG := big_log ]}) 0.

(** The two lines of the end-to-end scenario, a line whose ship name is
    blank, and a scripted [json.loads] that decodes these three, an empty
    array and an empty object, and raises on everything else. *)
Definition DQ : string := String (ascii_of_nat 34) "".
Definition position_line : string :=
  "{" +:+ DQ +:+ "mmsi" +:+ DQ +:+ ":" +:+ DQ +:+ "123456789" +:+ DQ +:+ ","
  +:+ DQ +:+ "lat" +:+ DQ +:+ ":10.0," +:+ DQ +:+ "lon" +:+ DQ +:+ ":20.0,"
  +:+ DQ +:+ "speed" +:+ DQ +:+ ":5.0}".
Definition name_line : string :=
  "{" +:+ DQ +:+ "mmsi" +:+ DQ +:+ ":" +:+ DQ +:+ "123456789" +:+ DQ +:+ ","
  +:+ DQ +:+ "shipname" +:+ DQ +:+ ":" +:+ DQ +:+ "TEST VESSEL " +:+ DQ +:+ "}".
Definition blank_name_line : string :=
  "{" +:+ DQ +:+ "mmsi" +:+ DQ +:+ ":244660000,"
  +:+ DQ +:+ "shipname" +:+ DQ +:+ ":" +:+ DQ +:+ "   " +:+ DQ +:+ "}".
Definition demo_json_loads (s : string) : result pyval :=
  if bool_decide (s = position_line) then
    Ok (PyDict [ ("mmsi", PyStr "123456789"); ("lat", PyFloat (Q2Qc 10));
                 ("lon", PyFloat (Q2Qc 20)); ("speed", PyFloat (Q2Qc 5)) ])
  else if bool_decide (s = name_line) then
    Ok (PyDict [ ("mmsi", PyStr "123456789"); ("shipname", PyStr "TEST VESSEL ") ])
  else if bool_decide (s = blank_name_line) then
    Ok (PyDict [ ("mmsi", PyInt 244660000); ("shipname", PyStr "   ") ])
  else if bool_decide (s = "[]") then Ok (PyList [])
  else if bool_decide (s = "{}") then Ok (PyDict [])
  else Raise (JSONDecodeError "Expecting value: line 1 column 1 (char 0)").

(** The sparse update built from [position_line]. *)
Definition position_data : gmap string pyval :=
  <["speed" := PyFloat (Q2Qc 5)]> (<["longitude" := PyFloat (Q2Qc 20)]>
    (<["latitude" := PyFloat (Q2Qc 10)]> {[ "mmsi" := PyStr "123456789" ]})).

(** * Further vocabulary and inputs *)

(** A log of exactly 10 MiB. *)
Definition full_log : list string := repeat KIB_BLOCK (Z.to_nat 10240).
Definition full_log_world : world :=
  mk_world [] ∅ (<[BACKUP := ["old backup"]]> {[ ERROR_LOG := full_log ]}) 0.


(** An update for [demo_key] that carries a JSON array as callsign, beside
    a name. *)
Definition array_callsign_update : gmap string pyval :=
  <["name" := PyStr "NEW NAME"]> (<["callsign" := PyList [PyStr "PB"; PyStr "XY"]]>
    {[ "mmsi" := PyInt 244660000 ]}).

(** A second vessel, and a store with both. *)
Definition other_row : row :=
  assign [ (mmsi, SInt 211000000); (name, SText "HAMBURG EXPRESS");
           (last_updated, SText "2024-01-05T11:30:00.500000Z") ] null_row.
Definition two_vessel_world : world := mk_world [other_row; demo_row] ∅ ∅ 0.

(** The columns that no statement of [update_vessel] assigns on a row that
    exists. *)
Definition static_columns : list column :=
  [mmsi; timestamp; imo; dimension_bow; dimension_stern; dimension_port;
   dimension_starboard; draught].


(** The three text fields of a record with the keys they are stored under,
    and what [strip] makes of a text value. *)
Definition text_fields : list (string * string) :=
  [("shipname", "name"); ("callsign", "callsign"); ("destination", "destination")].
Definition is_text (v : pyval) : bool :=
  match v with PyStr _ => true | _ => false end.
Definition stripped (v : pyval) : pyval :=
  match v with PyStr s => PyStr (strip s) | _ => v end.

(** A line whose record has an integer beyond 64 bits as key, with the
    update built from it; a line whose record has a null shipname; and a
    decoder for these two lines that is [demo_json_loads] on all others. *)
Definition huge_key_line : string :=
  "{" +:+ DQ +:+ "mmsi" +:+ DQ +:+ ":1180591620717411303424,"
  +:+ DQ +:+ "lat" +:+ DQ +:+ ":10.0}".
Definition null_name_line : string :=
  "{" +:+ DQ +:+ "mmsi" +:+ DQ +:+ ":244660000,"
  +:+ DQ +:+ "lat" +:+ DQ +:+ ":10.0,"
  +:+ DQ +:+ "shipname" +:+ DQ +:+ ":null}".
Definition script_json_loads (s : string) : result pyval :=
  if bool_decide (s = huge_key_line) then
    Ok (PyDict [ ("mmsi", PyInt (2 ^ 70)); ("lat", PyFloat (Q2Qc 10)) ])
  else if bool_decide (s = null_name_line) then
    Ok (PyDict [ ("mmsi", PyInt 244660000); ("lat", PyFloat (Q2Qc 10));
                 ("shipname", PyNone) ])
  else demo_json_loads s.



(** Stand-ins for the two trigonometric functions in worked requests. *)
Definition demo_distance (la lo lat lon : Qc) : Qc := Q2Qc 0.
Definition demo_bearing (la lo lat lon : Qc) : Qc := Q2Qc 0.

(** ** The diagnostics request *)

(** The places of [get_diagnostics] outside its two inner handlers, and
    a request during which the host raises at none of the given places. *)
Definition outer_steps : list step :=
  [Connect; CountVessels; StatStore; SelectDiagnostics; Enumerate; Respond].
Definition no_fault_at (fault : step -> option exn) (steps : list step) : bool :=
  forallb (fun s => match fault s with None => true | Some _ => false end) steps.

(** A text without line break, and a text that is empty or ends with a
    line feed. *)
Fixpoint one_line (s : string) : bool :=
  match s with
  | EmptyString => true
  | String c s' =>
      negb (bool_decide (c = ascii_of_nat 10)) && negb (bool_decide (c = ascii_of_nat 13))
      && one_line s'
  end.
Definition complete (s : string) : Prop := s = "" ∨ ∃ s', s = s' +:+ NL.



(** * Properties *)

(** ** Sanity checks of the runtime model *)

Example isoformat_frac :
  isoformat (datetime 2024 1 5 12 0 0 500000) = "2024-01-05T12:00:00.500000".
Proof. vm_compute. reflexivity. Qed.

Example isoformat_whole :
  isoformat (datetime 2024 2 29 23 59 59 0) = "2024-02-29T23:59:59".
Proof. vm_compute. reflexivity. Qed.

Example str_int_250 : str_int 250 = "250" /\ str_int 0 = "0" /\ str_int 1000 = "1000".
Proof. vm_compute. auto. Qed.

Example strip_ex : strip "  TEST VESSEL  " = "TEST VESSEL" /\ strip "   " = "".
Proof. vm_compute. auto. Qed.

(** ** What each writer of capture.py leaves alone *)

Section Frames.

Variable utc : nat -> Z.
Variable repr : pyval -> string.

Lemma log_error_vessels msg w : vessels (log_error utc msg w) = vessels w.
Proof. reflexivity. Qed.

Lemma log_error_diagnostics msg w : diagnostics (log_error utc msg w) = diagnostics w.
Proof. reflexivity. Qed.

Lemma log_error_ticks msg w : ticks (log_error utc msg w) = S (ticks w).
Proof. reflexivity. Qed.

Lemma update_diagnostic_vessels k v w :
  vessels (update_diagnostic utc repr k v w) = vessels w.
Proof. reflexivity. Qed.

Lemma update_diagnostic_files k v w :
  files (update_diagnostic utc repr k v w) = files w.
Proof. reflexivity. Qed.

Lemma update_diagnostic_entry k v w :
  diagnostics (update_diagnostic utc repr k v w)
  = <[k := (str repr v, stamp (utc (ticks w)))]> (diagnostics w).
Proof. reflexivity. Qed.

End Frames.

(** ** The error log *)

Lemma backup_ne_log : BACKUP ≠ ERROR_LOG.
Proof. vm_compute. discriminate. Qed.

Lemma getsize_repeat chunk n :
  getsize (repeat chunk n) = Z.of_nat n * len chunk.
Proof.
  induction n as [|n IH]; simpl repeat.
  - reflexivity.
  - change (getsize (chunk :: repeat chunk n))
      with (len chunk + getsize (repeat chunk n)).
    rewrite IH. lia.
Qed.

Section ErrorLog.

Variable utc : nat -> Z.

(** An append to a log within the threshold (or to no log yet) touches
    nothing but the log. *)
Lemma log_error_appends msg w :
  (∀ f, files w !! ERROR_LOG = Some f → getsize f <= MAX_LOG_SIZE) →
  files (log_error utc msg w)
  = <[ERROR_LOG := default [] (files w !! ERROR_LOG) ++ [log_line utc (ticks w) msg]]>
      (files w).
Proof.
  intros Hsmall. unfold log_error, rotate. simpl.
  destruct (files w !! ERROR_LOG) as [f|] eqn:Hf;
    [|unfold append; rewrite Hf; reflexivity].
  specialize (Hsmall f eq_refl).
  destruct (MAX_LOG_SIZE <? getsize f) eqn:Hlt; [apply Z.ltb_lt in Hlt; lia|].
  unfold append. rewrite Hf. reflexivity.
Qed.

(** C8. Log rotation: when the log is larger than the 10 MiB threshold, an
    append first makes the log the backup (whatever backup there was is
    gone) and then starts a fresh log holding the appended line alone; no
    other file is touched, so the backup is one file at one fixed path; and
    the append after that one, the fresh log being within the threshold,
    does not rotate again. *)
Theorem log_error_rotation msg w f :
  files w !! ERROR_LOG = Some f →
  MAX_LOG_SIZE < getsize f →
  let w' := log_error utc msg w in
  let line := log_line utc (ticks w) msg in
  files w' !! BACKUP = Some f
  ∧ files w' !! ERROR_LOG = Some [line]
  ∧ (∀ p, p ≠ ERROR_LOG → p ≠ BACKUP → files w' !! p = files w !! p)
  ∧ (getsize [line] <= MAX_LOG_SIZE →
     ∀ msg', let w'' := log_error utc msg' w' in
       files w'' !! BACKUP = Some f
       ∧ files w'' !! ERROR_LOG = Some [line; log_line utc (ticks w') msg']).
Proof.
  intros Hf Hbig w' line.
  assert (Hfs : files w' = <[ERROR_LOG := [line]]> (<[BACKUP := f]>
                  (delete ERROR_LOG (delete BACKUP (files w))))).
  { subst w' line. unfold log_error, rotate. simpl. rewrite Hf.
    apply Z.ltb_lt in Hbig. rewrite Hbig. fold BACKUP.
    assert (Hren : ∀ fs : gmap string (list string),
               fs !! ERROR_LOG = Some f →
               rename ERROR_LOG BACKUP fs = <[BACKUP := f]> (delete ERROR_LOG fs)).
    { intros fs H. unfold rename. rewrite H. reflexivity. }
    unfold append.
    case_bool_decide as Hold.
    - unfold remove. rewrite Hren.
      2:{ rewrite lookup_delete_ne by exact backup_ne_log. exact Hf. }
      rewrite lookup_insert_ne by exact backup_ne_log.
      rewrite lookup_delete_eq. reflexivity.
    - rewrite Hren by exact Hf.
      rewrite lookup_insert_ne by exact backup_ne_log.
      rewrite lookup_delete_eq.
      assert (Hnone : files w !! BACKUP = None).
      { destruct (files w !! BACKUP) eqn:E; [|reflexivity].
        exfalso. apply Hold. eauto. }
      rewrite (delete_id (files w) BACKUP) by exact Hnone. reflexivity. }
  assert (Hbk : files w' !! BACKUP = Some f).
  { rewrite Hfs, lookup_insert_ne by (intros E; symmetry in E; exact (backup_ne_log E)).
    apply lookup_insert_eq. }
  assert (Hlog : files w' !! ERROR_LOG = Some [line]).
  { rewrite Hfs. apply lookup_insert_eq. }
  split; [exact Hbk|]. split; [exact Hlog|]. split.
  - intros p Hp1 Hp2. rewrite Hfs.
    rewrite lookup_insert_ne by congruence.
    rewrite lookup_insert_ne by congruence.
    rewrite lookup_delete_ne by congruence.
    rewrite lookup_delete_ne by congruence. reflexivity.
  - intros Hsmall msg' w''. subst w''.
    rewrite log_error_appends.
    2:{ intros f' Hf'. rewrite Hlog in Hf'. injection Hf' as <-. exact Hsmall. }
    rewrite Hlog. simpl. split.
    + rewrite lookup_insert_ne by (intros E; symmetry in E; exact (backup_ne_log E)).
      exact Hbk.
    + apply lookup_insert_eq.
Qed.

End ErrorLog.

Lemma log_error_rotation_witness :
  let utc := fun _ : nat => datetime 2024 1 5 12 0 0 0 in
  let w' := log_error utc "boom" big_log_world in
  files w' !! BACKUP = Some big_log
  ∧ files w' !! ERROR_LOG = Some [log_line utc 0 "boom"].
Proof.
  intros utc w'.
  assert (Hf : files big_log_world !! ERROR_LOG = Some big_log).
  { unfold big_log_world. simpl.
    rewrite lookup_insert_ne by exact backup_ne_log. apply lookup_singleton_eq. }
  assert (Hbig : MAX_LOG_SIZE < getsize big_log).
  { unfold big_log. rewrite getsize_repeat. vm_compute. reflexivity. }
  destruct (log_error_rotation utc "boom" big_log_world big_log Hf Hbig)
    as (H1 & H2 & _).
  split; [exact H1 | exact H2].
Defined.

(** ** Binding and assignment *)

Lemma bind_Ok {A B} (a : A) (f : A -> result B) : (Ok a ≫= f) = f a.
Proof. reflexivity. Qed.

Lemma bind_param_ok i v : bindable v = true → bind_param i v = Ok (sql_of v).
Proof.
  unfold bindable, sql_of. destruct v; simpl; try discriminate; try reflexivity.
  destruct (_ && _); [reflexivity | discriminate].
Qed.

Lemma bind_param_bindable i v b : bind_param i v = Ok b → bindable v = true ∧ b = sql_of v.
Proof.
  unfold bindable, sql_of. destruct v; simpl; try discriminate;
    try (intros [= <-]; split; reflexivity).
  destruct (_ && _); [intros [= <-]; split; reflexivity | discriminate].
Qed.

Lemma bind_sets_ok i sets :
  Forall (fun cv : column * pyval => bindable cv.2 = true) sets →
  bind_sets i sets = Ok (bound sets).
Proof.
  intros H. revert i. induction H as [|[c v] rest Hv _ IH]; intros i; simpl.
  - reflexivity.
  - rewrite (bind_param_ok i v Hv). simpl. rewrite IH. reflexivity.
Qed.

Lemma bind_sets_bindable i sets bs :
  bind_sets i sets = Ok bs →
  Forall (fun cv : column * pyval => bindable cv.2 = true) sets ∧ bs = bound sets.
Proof.
  revert i bs. induction sets as [|[c v] rest IH]; intros i bs; simpl.
  - intros [= <-]. split; [constructor | reflexivity].
  - destruct (bind_param i v) as [b|e] eqn:Hb; simpl; [|discriminate].
    destruct (bind_sets (S i) rest) as [bs'|e] eqn:Hbs; simpl; [|discriminate].
    intros [= <-]. apply bind_param_bindable in Hb as [Hv ->].
    destruct (IH _ _ Hbs) as [Hrest ->].
    split; [constructor; assumption | reflexivity].
Qed.

Lemma set_col_same c v r : set_col c v r c = v.
Proof. unfold set_col. destruct (decide (c = c)); congruence. Qed.

Lemma set_col_other c c' v r : c ≠ c' → set_col c v r c' = r c'.
Proof. unfold set_col. destruct (decide (c = c')); congruence. Qed.

Lemma assign_lookup sets r c :
  assign sets r c = default (r c) (last_assigned c sets).
Proof.
  unfold assign. revert r.
  induction sets as [|[c' v] rest IH]; intros r; simpl.
  - reflexivity.
  - rewrite IH. destruct (last_assigned c rest) as [v'|]; simpl; [reflexivity|].
    destruct (decide (c' = c)) as [->|Hne]; simpl.
    + apply set_col_same.
    + apply set_col_other. exact Hne.
Qed.

Lemma last_assigned_app c l1 l2 :
  last_assigned c (l1 ++ l2)
  = match last_assigned c l2 with
    | Some v => Some v
    | None => last_assigned c l1
    end.
Proof.
  induction l1 as [|[c' v] l1 IH]; simpl.
  - destruct (last_assigned c l2); reflexivity.
  - rewrite IH. destruct (last_assigned c l2); reflexivity.
Qed.

Lemma last_assigned_present c data k col :
  last_assigned c (bound (present data k col))
  = if decide (col = c) then sql_of <$> data !! k else None.
Proof.
  unfold present. destruct (data !! k); simpl; destruct (decide (col = c)); reflexivity.
Qed.

Lemma string_compare_refl s : String.compare s s = Eq.
Proof.
  pose proof (String.compare_antisym s s) as H.
  destruct (String.compare s s); simpl in H; congruence.
Qed.

(** [sql_eq] is reflexive on every value but NULL. *)
Lemma sql_eq_refl k : k ≠ SNull → sql_eq k k = true.
Proof.
  unfold sql_eq. destruct k; simpl; intros H; try congruence.
  - rewrite Z.compare_refl. reflexivity.
  - rewrite (proj1 (Qceq_alt q q) eq_refl). reflexivity.
  - rewrite string_compare_refl. reflexivity.
Qed.

Lemma truthy_not_null v : truthy v = true → bindable v = true → sql_of v ≠ SNull.
Proof.
  unfold bindable, sql_of. destruct v; simpl; try discriminate.
  destruct (_ && _); discriminate.
Qed.

(** ** Sparse updates *)

Section SparseMerge.

Variable utc : nat -> Z.
Variable repr : pyval -> string.

Lemma update_for_key k u : update_for k u → bindable (get u "mmsi" PyNone) = true.
Proof.
  intros (Ht & _ & Hall). unfold get in *.
  destruct (u !! "mmsi") as [v|] eqn:E; simpl in *; [|discriminate].
  exact (Hall _ _ E).
Qed.

Lemma present_bindable u k c :
  map_Forall (fun _ v => bindable v = true) u →
  Forall (fun cv : column * pyval => bindable cv.2 = true) (present u k c).
Proof.
  intros Hall. unfold present. destruct (u !! k) as [v|] eqn:E; constructor.
  - exact (Hall _ _ E).
  - constructor.
Qed.

Lemma update_fields_bindable u :
  map_Forall (fun _ v => bindable v = true) u →
  Forall (fun cv : column * pyval => bindable cv.2 = true) (update_fields u).
Proof.
  intros Hall. unfold update_fields.
  repeat (apply Forall_app; split); try (apply present_bindable; exact Hall).
  destruct (u !! "name") as [v|] eqn:E; [|constructor].
  destruct (truthy v); constructor; [exact (Hall _ _ E) | constructor].
Qed.

Lemma bound_app l1 l2 : bound (l1 ++ l2) = bound l1 ++ bound l2.
Proof. apply map_app. Qed.

Lemma assign_update_fields u now r c :
  assign (bound (update_fields u ++ [(last_updated, PyStr now)])) r c = merged u now r c.
Proof.
  rewrite assign_lookup. unfold update_fields.
  rewrite !bound_app, !last_assigned_app, !last_assigned_present.
  unfold merged, effective, carried.
  destruct (u !! "name") as [v|] eqn:En; [destruct (truthy v) eqn:Et|];
    destruct c; simpl; try reflexivity;
    repeat match goal with |- context [u !! ?k] => destruct (u !! k) end;
    reflexivity.
Qed.

(** The row the INSERT branch builds, column by column. *)
Lemma assign_insert_values u key now c :
  assign (bound (insert_values u key now)) null_row c
  = match c with
    | mmsi => sql_of key
    | name => sql_of (get u "name" (PyStr ""))
    | latitude => sql_of (get u "latitude" PyNone)
    | longitude => sql_of (get u "longitude" PyNone)
    | speed => sql_of (get u "speed" PyNone)
    | course => sql_of (get u "course" PyNone)
    | heading => sql_of (get u "heading" PyNone)
    | vessel_type => sql_of (get u "vessel_type" (PyStr ""))
    | callsign => sql_of (get u "callsign" (PyStr ""))
    | nav_status => sql_of (get u "nav_status" (PyStr ""))
    | timestamp | last_updated => SText now
    | _ => SNull
    end.
Proof. rewrite assign_lookup. destruct c; reflexivity. Qed.

(** What a successful [upsert] did: the key could be bound, and the rows
    are those of the UPDATE or of the INSERT. *)
Lemma upsert_ok u key now vs vs' :
  upsert u key now vs = Ok vs' →
  bindable key = true
  ∧ vs' = if existsb (fun r => sql_eq (r mmsi) (sql_of key)) vs
          then map (fun r => if sql_eq (r mmsi) (sql_of key)
                             then assign (bound (update_fields u
                                                 ++ [(last_updated, PyStr now)])) r
                             else r) vs
          else vs ++ [assign (bound (insert_values u key now)) null_row].
Proof.
  unfold upsert, select_mmsi.
  destruct (bind_param 0 key) as [k|e] eqn:Hk; simpl; [|discriminate].
  apply bind_param_bindable in Hk as [Hkey ->]. intros H. split; [exact Hkey|].
  destruct (existsb (fun r => sql_eq (r mmsi) (sql_of key)) vs) eqn:Hex.
  - unfold sql_update in H.
    destruct (bind_sets 0 _) as [bs|e] eqn:Hbs; simpl in H; [|discriminate].
    apply bind_sets_bindable in Hbs as [_ ->].
    rewrite (bind_param_ok _ _ Hkey) in H. simpl in H.
    injection H as <-. reflexivity.
  - unfold sql_insert in H.
    destruct (bind_sets 0 _) as [bs|e] eqn:Hbs; simpl in H; [|discriminate].
    apply bind_sets_bindable in Hbs as [_ ->].
    rewrite assign_insert_values, Hex in H. injection H as <-. reflexivity.
Qed.

(** [update_vessel] when its statements succeed: the rows are committed
    and the last-message diagnostic is written. *)
Lemma update_vessel_ok u w vs' :
  truthy (get u "mmsi" PyNone) = true →
  upsert u (get u "mmsi" PyNone) (stamp (utc (ticks w))) (vessels w) = Ok vs' →
  update_vessel utc repr u w
  = update_diagnostic utc repr "last_message_time" (PyStr (stamp (utc (ticks w))))
      (set_vessels vs' (tick utc w)).
Proof.
  intros Ht Hup. unfold update_vessel. rewrite Ht. simpl.
  rewrite Hup. reflexivity.
Qed.

Lemma insert_values_bindable k u now :
  update_for k u →
  Forall (fun cv : column * pyval => bindable cv.2 = true)
    (insert_values u (get u "mmsi" PyNone) now).
Proof.
  intros Hu. pose proof (update_for_key k u Hu) as Hkey.
  destruct Hu as (_ & _ & Hall).
  assert (Hget : ∀ key d, bindable d = true → bindable (get u key d) = true).
  { intros key d Hd. unfold get. destruct (u !! key) as [v|] eqn:E; simpl.
    - exact (Hall _ _ E).
    - exact Hd. }
  unfold insert_values. repeat constructor; simpl; try apply Hget; reflexivity.
Qed.

(** A well-formed update succeeds, whichever branch it takes. *)
Lemma upsert_update_for k u now vs :
  update_for k u →
  upsert u (get u "mmsi" PyNone) now vs
  = Ok (if existsb (fun r => sql_eq (r mmsi) k) vs
        then map (fun r => if sql_eq (r mmsi) k
                           then assign (bound (update_fields u
                                               ++ [(last_updated, PyStr now)])) r
                           else r) vs
        else vs ++ [assign (bound (insert_values u (get u "mmsi" PyNone) now)) null_row]).
Proof.
  intros Hu. pose proof (update_for_key k u Hu) as Hkey.
  pose proof (insert_values_bindable k u now Hu) as Hins.
  destruct Hu as (Ht & <- & Hall).
  unfold upsert, select_mmsi.
  rewrite (bind_param_ok 0 _ Hkey), !bind_Ok.
  destruct (existsb (fun r => sql_eq (r mmsi) (sql_of (get u "mmsi" PyNone))) vs) eqn:Hex.
  - unfold sql_update. rewrite (bind_sets_ok 0).
    2:{ apply Forall_app. split; [apply update_fields_bindable; exact Hall|].
        constructor; [reflexivity | constructor]. }
    rewrite bind_Ok, (bind_param_ok _ _ Hkey), bind_Ok. reflexivity.
  - unfold sql_insert. rewrite (bind_sets_ok 0 _ Hins), bind_Ok.
    cbv zeta. rewrite assign_insert_values, Hex. reflexivity.
Qed.

(** The UPDATE branch of a well-formed update. *)
Lemma update_vessel_existing k u w :
  update_for k u →
  existsb (fun r => sql_eq (r mmsi) k) (vessels w) = true →
  update_vessel utc repr u w
  = update_diagnostic utc repr "last_message_time" (PyStr (stamp (utc (ticks w))))
      (set_vessels
         (map (fun r => if sql_eq (r mmsi) k
                        then assign (bound (update_fields u
                                            ++ [(last_updated, PyStr (stamp (utc (ticks w))))])) r
                        else r) (vessels w))
         (tick utc w)).
Proof.
  intros Hu Hex. rewrite (update_vessel_ok u w _ (proj1 Hu) (upsert_update_for k u _ _ Hu)).
  rewrite Hex. reflexivity.
Qed.

(** The INSERT branch of a well-formed update. *)
Lemma update_vessel_fresh k u w :
  update_for k u →
  existsb (fun r => sql_eq (r mmsi) k) (vessels w) = false →
  update_vessel utc repr u w
  = update_diagnostic utc repr "last_message_time" (PyStr (stamp (utc (ticks w))))
      (set_vessels
         (vessels w ++ [assign (bound (insert_values u (get u "mmsi" PyNone)
                                         (stamp (utc (ticks w))))) null_row])
         (tick utc w)).
Proof.
  intros Hu Hex. rewrite (update_vessel_ok u w _ (proj1 Hu) (upsert_update_for k u _ _ Hu)).
  rewrite Hex. reflexivity.
Qed.

Lemma find_vessel_map k (g : row -> row) vs :
  (∀ r, g r mmsi = r mmsi) →
  find_vessel k (map (fun r => if sql_eq (r mmsi) k then g r else r) vs)
  = g <$> find_vessel k vs.
Proof.
  intros Hg. unfold find_vessel. induction vs as [|r vs IH]; simpl.
  - reflexivity.
  - destruct (sql_eq (r mmsi) k) eqn:E.
    + rewrite Hg, E. reflexivity.
    + rewrite E. exact IH.
Qed.

Lemma find_vessel_exists k vs r :
  find_vessel k vs = Some r → existsb (fun r => sql_eq (r mmsi) k) vs = true.
Proof.
  unfold find_vessel. induction vs as [|x vs IH]; simpl; [discriminate|].
  destruct (sql_eq (x mmsi) k); [reflexivity | exact IH].
Qed.

(** One well-formed update of an existing row: the row becomes [merged]. *)
Lemma update_vessel_merges k u w r :
  update_for k u →
  find_vessel k (vessels w) = Some r →
  ∃ r', find_vessel k (vessels (update_vessel utc repr u w)) = Some r'
        ∧ ∀ c, r' c = merged u (stamp (utc (ticks w))) r c.
Proof.
  intros Hu Hr.
  rewrite (update_vessel_existing k u w Hu (find_vessel_exists _ _ _ Hr)).
  rewrite update_diagnostic_vessels. simpl.
  rewrite (find_vessel_map k
             (assign (bound (update_fields u
                             ++ [(last_updated, PyStr (stamp (utc (ticks w))))])))).
  2:{ intros r0. rewrite assign_update_fields. reflexivity. }
  rewrite Hr. simpl. eexists. split; [reflexivity|].
  intros c. apply assign_update_fields.
Qed.

Lemma latest_merged u now r c :
  is_Some (field_key c) →
  merged u now r c = match effective c u with Some v => sql_of v | None => r c end.
Proof. destruct c; simpl; intros [k [=]]; reflexivity. Qed.

(** A sequence of well-formed updates of an existing row: column by
    column, the last update that writes the column decides. *)
Lemma apply_updates_merges k us w r :
  find_vessel k (vessels w) = Some r →
  Forall (update_for k) us →
  ∃ r', find_vessel k (vessels (apply_updates utc repr us w)) = Some r'
        ∧ ∀ c, is_Some (field_key c) →
               r' c = match latest (effective c) us with
                      | Some v => sql_of v
                      | None => r c
                      end.
Proof.
  intros Hr Hus. revert w r Hr.
  induction Hus as [|u rest Hu _ IH]; intros w r Hr; simpl.
  - exists r. split; [exact Hr | reflexivity].
  - destruct (update_vessel_merges k u w r Hu Hr) as (r1 & Hr1 & Hm).
    destruct (IH _ _ Hr1) as (r' & Hr' & Hc).
    exists r'. split; [exact Hr'|].
    intros c Hfield. rewrite (Hc c Hfield).
    destruct (latest (effective c) rest); [reflexivity|].
    rewrite Hm. apply latest_merged. exact Hfield.
Qed.

(** C1 (amended). Sparse merge over a sequence: after any sequence of
    well-formed updates applied in order to a key that has a row, each of
    the ten merged columns holds the value of the most recent update that
    included it, or what it held before when none did; for the name, an
    update counts only when the name it carries is non-empty. *)
Theorem sparse_merge_latest k us w r :
  find_vessel k (vessels w) = Some r →
  Forall (update_for k) us →
  ∃ r', find_vessel k (vessels (apply_updates utc repr us w)) = Some r'
        ∧ ∀ c, is_Some (field_key c) →
               r' c = match latest (effective c) us with
                      | Some v => sql_of v
                      | None => r c
                      end.
Proof. exact (apply_updates_merges k us w r). Qed.

(** One update of an existing row leaves every merged column it does not
    include as it was. *)
Lemma absent_field_unchanged k u w r c :
  find_vessel k (vessels w) = Some r →
  update_for k u →
  is_Some (field_key c) →
  carried c u = None →
  ∃ r', find_vessel k (vessels (update_vessel utc repr u w)) = Some r' ∧ r' c = r c.
Proof.
  intros Hr Hu Hc Habs.
  destruct (update_vessel_merges k u w r Hu Hr) as (r' & Hr' & Hm).
  exists r'. split; [exact Hr'|]. rewrite Hm, (latest_merged u _ r c Hc).
  assert (He : effective c u = None).
  { destruct c; try exact Habs. unfold carried in Habs. simpl in *. rewrite Habs.
    reflexivity. }
  rewrite He. reflexivity.
Qed.

(** An update that names no key changes nothing. *)
Lemma update_vessel_without_key u w :
  truthy (get u "mmsi" PyNone) = false → update_vessel utc repr u w = w.
Proof. intros H. unfold update_vessel. rewrite H. reflexivity. Qed.

(** C9. On a row that exists, an update whose name is present but empty
    leaves the stored name as it was, while the text columns vessel_type,
    callsign, destination and nav_status take whatever the update carries
    for them, the empty string included. *)
Theorem empty_name_keeps_name k u w r v :
  find_vessel k (vessels w) = Some r →
  update_for k u →
  u !! "name" = Some v →
  truthy v = false →
  ∃ r', find_vessel k (vessels (update_vessel utc repr u w)) = Some r'
        ∧ r' name = r name
        ∧ ∀ c x, c ∈ [vessel_type; callsign; destination; nav_status] →
                 carried c u = Some x → r' c = sql_of x.
Proof.
  intros Hr Hu Hname Hv.
  destruct (update_vessel_merges k u w r Hu Hr) as (r' & Hr' & Hm).
  exists r'. split; [exact Hr'|]. split.
  - rewrite Hm. unfold merged, effective. rewrite Hname, Hv. reflexivity.
  - intros c x Hc Hx. rewrite Hm.
    repeat (apply elem_of_cons in Hc as [->|Hc]);
      try (unfold merged, effective; rewrite Hx; reflexivity).
    inversion Hc.
Qed.

Lemma find_vessel_none k vs :
  find_vessel k vs = None → existsb (fun r => sql_eq (r mmsi) k) vs = false.
Proof.
  unfold find_vessel. induction vs as [|x vs IH]; simpl; [reflexivity|].
  destruct (sql_eq (x mmsi) k); [discriminate | exact IH].
Qed.

Lemma find_vessel_appended k vs r :
  existsb (fun r => sql_eq (r mmsi) k) vs = false →
  sql_eq (r mmsi) k = true →
  find_vessel k (vs ++ [r]) = Some r.
Proof.
  unfold find_vessel. intros Hex Hr. induction vs as [|x vs IH]; simpl in *.
  - rewrite Hr. reflexivity.
  - destruct (sql_eq (x mmsi) k); [discriminate | exact (IH Hex)].
Qed.


(** A sequence that starts on a key with no row: the first update
    inserts, the others merge; apart from name and destination, each merged
    column holds the value of the most recent update that included it, and
    the default of the INSERT when none did. *)
Lemma apply_updates_from_first_write k u rest w :
  find_vessel k (vessels w) = None →
  Forall (update_for k) (u :: rest) →
  ∃ r', find_vessel k (vessels (apply_updates utc repr (u :: rest) w)) = Some r'
        ∧ (∀ c, c ∈ [latitude; longitude; speed; course; heading] →
                r' c = match latest (carried c) (u :: rest) with
                       | Some v => sql_of v
                       | None => SNull
                       end)
        ∧ (∀ c, c ∈ [vessel_type; callsign; nav_status] →
                r' c = match latest (carried c) (u :: rest) with
                       | Some v => sql_of v
                       | None => SText ""
                       end).
Proof.
  intros Hnone Hall. inversion Hall as [|? ? Hu Hrest]; subst.
  pose proof (find_vessel_none _ _ Hnone) as Hex.
  pose proof (update_for_key k u Hu) as Hkey.
  assert (Hr1 : find_vessel k (vessels (update_vessel utc repr u w))
                = Some (assign (bound (insert_values u (get u "mmsi" PyNone)
                                         (stamp (utc (ticks w))))) null_row)).
  { rewrite (update_vessel_fresh k u w Hu Hex), update_diagnostic_vessels.
    change (vessels (set_vessels ?vs _)) with vs.
    apply find_vessel_appended; [exact Hex|].
    rewrite assign_insert_values. destruct Hu as (Ht & Hk & _). rewrite Hk.
    apply sql_eq_refl. rewrite <- Hk. apply truthy_not_null; assumption. }
  destruct (apply_updates_merges k rest _ _ Hr1 Hrest) as (r' & Hr' & Hc).
  exists r'. split; [exact Hr'|].
  split; intros c Hin;
    repeat (apply elem_of_cons in Hin as [->|Hin]); try (inversion Hin; fail);
    (rewrite Hc by (eexists; reflexivity));
    match goal with
    | |- context [effective ?c] => change (effective c) with (carried c)
    end;
    cbn [latest];
    match goal with
    | |- context [latest ?f rest] => destruct (latest f rest); [reflexivity|]
    end;
    rewrite assign_insert_values; unfold carried, get; cbn [field_key];
    match goal with
    | |- context [u !! ?key] => destruct (u !! key); reflexivity
    end.
Qed.

End SparseMerge.

(** ** Worked updates *)

Lemma demo_update_for u :
  truthy (get u "mmsi" PyNone) = true →
  sql_of (get u "mmsi" PyNone) = demo_key →
  forallb (fun kv => bindable kv.2) (map_to_list u) = true →
  update_for demo_key u.
Proof.
  intros Ht Hk H2.
  split; [exact Ht|]. split; [exact Hk|].
  intros key v Hv. apply elem_of_map_to_list in Hv.
  rewrite forallb_forall in H2. apply (H2 (key, v)).
  apply list_elem_of_In. exact Hv.
Qed.

Lemma sparse_merge_latest_witness :
  ∃ r', find_vessel demo_key
          (vessels (apply_updates demo_clock demo_repr
                      [position_update; name_update; empty_name_update] demo_world))
        = Some r'
        ∧ ∀ c, is_Some (field_key c) →
               r' c = match latest (effective c)
                              [position_update; name_update; empty_name_update] with
                      | Some v => sql_of v
                      | None => demo_row c
                      end.
Proof.
  apply (sparse_merge_latest demo_clock demo_repr demo_key
           [position_update; name_update; empty_name_update] demo_world demo_row).
  - reflexivity.
  - repeat constructor; apply demo_update_for; vm_compute; reflexivity.
Defined.

(** C1 as stated fails: the row is named EEMSLIFT, the one update of the
    sequence carries the name field with the empty string, and the stored
    name afterwards is still EEMSLIFT, not the empty string the most recent
    update that included the field carries. *)
Lemma sparse_merge_counterexample :
  ¬ (∀ r', find_vessel demo_key
             (vessels (apply_updates demo_clock demo_repr [empty_name_update] demo_world))
           = Some r' →
           ∀ c, is_Some (field_key c) →
                r' c = match latest (carried c) [empty_name_update] with
                       | Some v => sql_of v
                       | None => demo_row c
                       end).
Proof.
  intros H.
  destruct (find_vessel demo_key
              (vessels (apply_updates demo_clock demo_repr [empty_name_update] demo_world)))
    as [r'|] eqn:E; [|vm_compute in E; discriminate].
  specialize (H r' eq_refl name (ex_intro _ "name" eq_refl)).
  assert (Hn : r' name = SText "EEMSLIFT").
  { vm_compute in E. injection E as <-. reflexivity. }
  rewrite Hn in H. vm_compute in H. discriminate.
Qed.

Lemma empty_name_keeps_name_witness :
  ∃ r', find_vessel demo_key
          (vessels (update_vessel demo_clock demo_repr empty_name_update demo_world))
        = Some r'
        ∧ r' name = demo_row name
        ∧ ∀ c x, c ∈ [vessel_type; callsign; destination; nav_status] →
                 carried c empty_name_update = Some x → r' c = sql_of x.
Proof.
  apply (empty_name_keeps_name demo_clock demo_repr demo_key empty_name_update
           demo_world demo_row (PyStr "")).
  - reflexivity.
  - apply demo_update_for; vm_compute; reflexivity.
  - vm_compute. reflexivity.
  - reflexivity.
Defined.



(** The destination of a first update is not stored: the INSERT does not
    name the column, while the UPDATE branch does write it. *)
Example first_write_drops_destination :
  ∃ r', find_vessel demo_key
          (vessels (update_vessel demo_clock demo_repr destination_update empty_world))
        = Some r'
        ∧ r' destination = SNull
        ∧ carried destination destination_update = Some (PyStr "ROTTERDAM").
Proof. eexists. split; [reflexivity|]. split; vm_compute; reflexivity. Qed.

(** ** The ingestion loop *)

Section Ingestion.

Variable utc : nat -> Z.
Variable repr : pyval -> string.
Variable json_loads : string -> result pyval.

Lemma copy_field_mmsi d src dst (vd : gmap string pyval) :
  dst ≠ "mmsi" → copy_field d src dst vd !! "mmsi" = vd !! "mmsi".
Proof.
  intros Hne. unfold copy_field. destruct (assoc src d); [|reflexivity].
  apply lookup_insert_ne. exact Hne.
Qed.

Lemma copy_stripped_mmsi d src dst (vd vd' : gmap string pyval) :
  dst ≠ "mmsi" → copy_stripped d src dst vd = Ok vd' → vd' !! "mmsi" = vd !! "mmsi".
Proof.
  intros Hne. unfold copy_stripped.
  destruct (assoc src d) as [[]|]; simpl; try discriminate;
    intros H; injection H as <-; [apply lookup_insert_ne; exact Hne | reflexivity].
Qed.

(** The update built from a record names the record's [mmsi]. *)
Lemma vessel_data_of_mmsi d vd :
  vessel_data_of (PyDict d) = Ok vd →
  get vd "mmsi" PyNone = default PyNone (assoc "mmsi" d).
Proof.
  unfold vessel_data_of.
  destruct (copy_stripped d "shipname" "name" _) as [vd1|] eqn:H1; [|discriminate].
  rewrite bind_Ok.
  destruct (copy_stripped d "callsign" "callsign" _) as [vd2|] eqn:H2; [|discriminate].
  rewrite bind_Ok.
  destruct (copy_stripped d "destination" "destination" _) as [vd3|] eqn:H3;
    [|discriminate].
  rewrite bind_Ok. intros H. injection H as <-. unfold get.
  rewrite copy_field_mmsi by discriminate.
  assert (Hd : "destination" ≠ "mmsi") by discriminate.
  assert (Hc : "callsign" ≠ "mmsi") by discriminate.
  assert (Hn : "name" ≠ "mmsi") by discriminate.
  rewrite (copy_stripped_mmsi _ _ _ _ _ Hd H3).
  rewrite (copy_stripped_mmsi _ _ _ _ _ Hc H2).
  rewrite copy_field_mmsi by discriminate.
  rewrite (copy_stripped_mmsi _ _ _ _ _ Hn H1).
  rewrite !copy_field_mmsi by discriminate.
  rewrite lookup_singleton_eq. reflexivity.
Qed.

(** Building the update raises nothing but AttributeError. *)
Lemma vessel_data_of_raises v e :
  vessel_data_of v = Raise e → ∃ ty attr, e = AttributeError ty attr.
Proof.
  assert (Hcs : ∀ d src dst vd e, copy_stripped d src dst vd = Raise e →
                  ∃ ty attr, e = AttributeError ty attr).
  { intros d src dst vd e0. unfold copy_stripped.
    destruct (assoc src d) as [[]|]; simpl; try discriminate; intros [= <-]; eauto. }
  destruct v; simpl; try (intros [= <-]; eauto; fail).
  destruct (copy_stripped d "shipname" "name" _) as [vd1|] eqn:H1;
    [|intros [= <-]; exact (Hcs _ _ _ _ _ H1)].
  rewrite bind_Ok.
  destruct (copy_stripped d "callsign" "callsign" _) as [vd2|] eqn:H2;
    [|intros [= <-]; exact (Hcs _ _ _ _ _ H2)].
  rewrite bind_Ok.
  destruct (copy_stripped d "destination" "destination" _) as [vd3|] eqn:H3;
    [|intros [= <-]; exact (Hcs _ _ _ _ _ H3)].
  rewrite bind_Ok. discriminate.
Qed.

(** C4. Parser tolerance: a blank line, a comment line, a line that is not
    JSON, one that is JSON but not a record, and a record without an
    identity key are each processed without an exception leaving the
    iteration; the vessel table, the diagnostics and the message counter are
    as before; and the loop goes on with the next line. *)
Theorem parser_tolerance line st :
  noise json_loads line →
  ∃ st', process_line utc repr json_loads line st = (Ok tt, st')
         ∧ vessels (st_world st') = vessels (st_world st)
         ∧ diagnostics (st_world st') = diagnostics (st_world st)
         ∧ message_count st' = message_count st
         ∧ ∀ rest, main_loop utc repr json_loads (line :: rest) st
                   = main_loop utc repr json_loads rest st'.
Proof.
  intros Hn.
  assert (Hloop : ∀ st', process_line utc repr json_loads line st = (Ok tt, st') →
            ∀ rest, main_loop utc repr json_loads (line :: rest) st
                    = main_loop utc repr json_loads rest st').
  { intros st' H rest. simpl. rewrite H. reflexivity. }
  assert (Hskip : process_line utc repr json_loads line st = (Ok tt, st) →
            ∃ st', process_line utc repr json_loads line st = (Ok tt, st')
              ∧ vessels (st_world st') = vessels (st_world st)
              ∧ diagnostics (st_world st') = diagnostics (st_world st)
              ∧ message_count st' = message_count st
              ∧ ∀ rest, main_loop utc repr json_loads (line :: rest) st
                        = main_loop utc repr json_loads rest st').
  { intros H. exists st. repeat split; auto. }
  assert (Hlogged : ∀ msg,
            process_line utc repr json_loads line st
            = (Ok tt, mk_loop (log_error utc msg (st_world st)) (message_count st)) →
            ∃ st', process_line utc repr json_loads line st = (Ok tt, st')
              ∧ vessels (st_world st') = vessels (st_world st)
              ∧ diagnostics (st_world st') = diagnostics (st_world st)
              ∧ message_count st' = message_count st
              ∧ ∀ rest, main_loop utc repr json_loads (line :: rest) st
                        = main_loop utc repr json_loads rest st').
  { intros msg H. eexists. split; [exact H|]. repeat split; auto. }
  unfold process_line in *.
  destruct Hn as [Hb | Hc | e He | v Hv Hnd | d Hd Hk].
  - apply Hskip. rewrite Hb. reflexivity.
  - apply Hskip. rewrite Hc. rewrite orb_true_r. reflexivity.
  - destruct (negb (truthy (PyStr (strip line))) || startswith "#" (strip line));
      [apply Hskip; reflexivity|].
    unfold try_body in *. rewrite He in *. simpl in *.
    destruct e; try (eapply Hlogged; reflexivity). apply Hskip. reflexivity.
  - destruct (negb (truthy (PyStr (strip line))) || startswith "#" (strip line));
      [apply Hskip; reflexivity|].
    unfold try_body in *. rewrite Hv in *. rewrite bind_Ok in *.
    destruct v; try (eapply Hlogged; reflexivity).
    exfalso. exact (Hnd d eq_refl).
  - destruct (negb (truthy (PyStr (strip line))) || startswith "#" (strip line));
      [apply Hskip; reflexivity|].
    unfold try_body in *. rewrite Hd in *. rewrite bind_Ok in *.
    destruct (vessel_data_of (PyDict d)) as [vd|e] eqn:Hvd.
    + rewrite (vessel_data_of_mmsi d vd Hvd), Hk in *. apply Hskip. reflexivity.
    + destruct (vessel_data_of_raises _ _ Hvd) as (ty & attr & ->).
      eapply Hlogged. reflexivity.
Qed.

(** The iteration for a line that carries a message. *)
Lemma process_message line vd st :
  message json_loads line vd →
  process_line utc repr json_loads line st
  = (Ok tt,
     let w := update_vessel utc repr vd (st_world st) in
     let n := message_count st + 1 in
     if n mod 100 =? 0
     then mk_loop (update_diagnostic utc repr "total_messages" (PyInt n) w) n
     else mk_loop w n).
Proof.
  intros (Hnb & Hnc & Hvd & Hk). unfold process_line.
  assert (Hb : truthy (PyStr (strip line)) = true).
  { simpl. case_bool_decide; [contradiction | reflexivity]. }
  rewrite Hb, Hnc. simpl negb. cbv iota. unfold try_body. rewrite Hvd, Hk.
  cbv zeta. destruct ((message_count st + 1) mod 100 =? 0); reflexivity.
Qed.

(** [update_vessel] writes no diagnostic but the last-message time. *)
Lemma update_vessel_diagnostics_other u w key :
  key ≠ "last_message_time" →
  diagnostics (update_vessel utc repr u w) !! key = diagnostics w !! key.
Proof.
  intros Hne. unfold update_vessel.
  destruct (negb (truthy (get u "mmsi" PyNone))); [reflexivity|]. simpl.
  destruct (upsert _ _ _ _); simpl; [|reflexivity].
  apply lookup_insert_ne. congruence.
Qed.

Lemma main_loop_counter lines :
  Forall (fun line => ∃ vd, message json_loads line vd) lines →
  ∀ st,
    let st' := main_loop utc repr json_loads lines st in
    message_count st' = message_count st + Z.of_nat (length lines)
    ∧ counter_shown (st_world st')
      = if message_count st' / 100 =? message_count st / 100
        then counter_shown (st_world st)
        else Some (str_int (100 * (message_count st' / 100))).
Proof.
  induction 1 as [|line rest [vd Hm] _ IH]; intros st; simpl.
  - split; [lia|]. rewrite Z.eqb_refl. reflexivity.
  - rewrite (process_message line vd st Hm). cbv zeta.
    set (n := message_count st).
    destruct ((n + 1) mod 100 =? 0) eqn:Hmod.
    + apply Z.eqb_eq in Hmod.
      specialize (IH (mk_loop (update_diagnostic utc repr "total_messages" (PyInt (n + 1))
                                 (update_vessel utc repr vd (st_world st))) (n + 1))).
      cbv zeta in IH. simpl message_count in IH. simpl st_world in IH.
      destruct IH as [IHn IHc]. split; [lia|].
      rewrite IHc, IHn.
      assert (Hshown : counter_shown (update_diagnostic utc repr "total_messages"
                          (PyInt (n + 1)) (update_vessel utc repr vd (st_world st)))
                       = Some (str_int (n + 1))).
      { unfold counter_shown. rewrite update_diagnostic_entry, lookup_insert_eq.
        reflexivity. }
      rewrite Hshown.
      assert (Hne : ((n + 1 + Z.of_nat (length rest)) / 100 =? n / 100) = false).
      { apply Z.eqb_neq. pose proof (Zle_0_nat (length rest)).
        intros Heq.
        assert ((n + 1) / 100 <= (n + 1 + Z.of_nat (length rest)) / 100)
          by (apply Z.div_le_mono; lia).
        pose proof (Z.div_mod (n + 1) 100 ltac:(lia)).
        pose proof (Z.div_mod n 100 ltac:(lia)).
        pose proof (Z.mod_pos_bound n 100 ltac:(lia)). lia. }
      replace (n + Z.pos (Pos.of_succ_nat (length rest)))
        with (n + 1 + Z.of_nat (length rest)) by lia.
      rewrite Hne.
      destruct ((n + 1 + Z.of_nat (length rest)) / 100 =? (n + 1) / 100) eqn:Hsame;
        [|reflexivity].
      apply Z.eqb_eq in Hsame. rewrite Hsame. do 2 f_equal.
      pose proof (Z.div_mod (n + 1) 100 ltac:(lia)). lia.
    + apply Z.eqb_neq in Hmod.
      specialize (IH (mk_loop (update_vessel utc repr vd (st_world st)) (n + 1))).
      cbv zeta in IH. simpl message_count in IH. simpl st_world in IH.
      destruct IH as [IHn IHc]. split; [lia|].
      rewrite IHc, IHn.
      assert (Hsame : (n + 1) / 100 = n / 100).
      { pose proof (Z.div_mod (n + 1) 100 ltac:(lia)).
        pose proof (Z.div_mod n 100 ltac:(lia)).
        pose proof (Z.mod_pos_bound n 100 ltac:(lia)).
        pose proof (Z.mod_pos_bound (n + 1) 100 ltac:(lia)). lia. }
      rewrite Hsame.
      replace (n + Z.pos (Pos.of_succ_nat (length rest)))
        with (n + 1 + Z.of_nat (length rest)) by lia.
      unfold counter_shown.
      rewrite update_vessel_diagnostics_other by discriminate. reflexivity.
Qed.

(** C7 (amended). The message counter diagnostic is written at every
    hundredth message only: after [n] messages, counted from zero, it shows
    the largest multiple of 100 that is at most [n] when [n] is 100 or more
    (200 after 250 messages, 300 after the next 50), and is what it was
    before the loop when [n] is less than 100. *)
Theorem total_messages_every_hundred lines w :
  Forall (fun line => ∃ vd, message json_loads line vd) lines →
  let n := Z.of_nat (length lines) in
  let st' := main_loop utc repr json_loads lines (mk_loop w 0) in
  message_count st' = n
  ∧ counter_shown (st_world st')
    = if n <? 100 then counter_shown w else Some (str_int (100 * (n / 100))).
Proof.
  intros Hall n st'.
  destruct (main_loop_counter lines Hall (mk_loop w 0)) as [Hn Hc].
  fold st' in Hn, Hc. simpl in Hn, Hc. fold n in Hn. rewrite Z.add_0_l in Hn.
  split; [exact Hn|].
  rewrite Hc, Hn. change (0 / 100) with 0.
  assert (0 <= n) by (unfold n; lia).
  destruct (n <? 100) eqn:Hlt.
  - apply Z.ltb_lt in Hlt. rewrite (Z.div_small n 100) by lia. reflexivity.
  - apply Z.ltb_ge in Hlt.
    assert (Hq : (n / 100 =? 0) = false).
    { apply Z.eqb_neq. pose proof (Z.div_le_mono 100 n 100 ltac:(lia) Hlt) as Hd.
      change (100 / 100) with 1 in Hd. lia. }
    rewrite Hq. reflexivity.
Qed.

End Ingestion.

(** ** A scripted decoder *)

Lemma position_line_message : message demo_json_loads position_line position_data.
Proof.
  split; [vm_compute; discriminate|].
  split; [vm_compute; reflexivity|].
  split; [reflexivity | vm_compute; reflexivity].
Qed.

Lemma parser_tolerance_witness :
  ∃ st', process_line demo_clock demo_repr demo_json_loads "AIS-catcher v0.58"
           (mk_loop demo_world 7) = (Ok tt, st')
         ∧ vessels (st_world st') = vessels demo_world
         ∧ diagnostics (st_world st') = diagnostics demo_world
         ∧ message_count st' = 7
         ∧ ∀ rest, main_loop demo_clock demo_repr demo_json_loads
                     ("AIS-catcher v0.58" :: rest) (mk_loop demo_world 7)
                   = main_loop demo_clock demo_repr demo_json_loads rest st'.
Proof.
  apply (parser_tolerance demo_clock demo_repr demo_json_loads "AIS-catcher v0.58"
           (mk_loop demo_world 7)).
  apply (noise_not_json _ _ (JSONDecodeError "Expecting value: line 1 column 1 (char 0)")).
  vm_compute. reflexivity.
Defined.

Lemma total_messages_every_hundred_witness :
  let st' := main_loop demo_clock demo_repr demo_json_loads
               (repeat position_line 250) (mk_loop empty_world 0) in
  message_count st' = Z.of_nat (length (repeat position_line 250))
  ∧ counter_shown (st_world st')
    = if Z.of_nat (length (repeat position_line 250)) <? 100
      then counter_shown empty_world
      else Some (str_int (100 * (Z.of_nat (length (repeat position_line 250)) / 100))).
Proof.
  apply (total_messages_every_hundred demo_clock demo_repr demo_json_loads
           (repeat position_line 250) empty_world).
  apply List.Forall_forall. intros line Hin. apply repeat_spec in Hin. subst line.
  exists position_data. exact position_line_message.
Defined.

(** C7 as stated fails: after 250 messages the counter diagnostic shows
    200, not 250; it shows 300 after 50 more. *)
Lemma total_messages_counterexample :
  counter_shown (st_world (main_loop demo_clock demo_repr demo_json_loads
                             (repeat position_line 250) (mk_loop empty_world 0)))
  ≠ Some "250".
Proof. vm_compute. discriminate. Qed.

Example total_messages_250_then_300 :
  counter_shown (st_world (main_loop demo_clock demo_repr demo_json_loads
                             (repeat position_line 250) (mk_loop empty_world 0)))
  = Some "200"
  ∧ counter_shown (st_world (main_loop demo_clock demo_repr demo_json_loads
                               (repeat position_line 300) (mk_loop empty_world 0)))
    = Some "300".
Proof. split; vm_compute; reflexivity. Qed.

(** A ship name of blanks only is stripped to the empty string and leaves
    the stored name alone. *)
Example blank_shipname_keeps_name :
  let st := (process_line demo_clock demo_repr demo_json_loads blank_name_line
               (mk_loop demo_world 0)).2 in
  message_count st = 1
  ∧ ∃ r', find_vessel demo_key (vessels (st_world st)) = Some r'
          ∧ r' name = SText "EEMSLIFT"
          ∧ r' last_updated = SText "2024-01-05T12:00:00.250000Z".
Proof. split; [reflexivity|]. eexists. split; [reflexivity|]. split; vm_compute; reflexivity. Qed.

(** The end-to-end scenario: the position line, then the name line; the
    list query returns one vessel with the key, the position, the speed and
    the trimmed name. *)
Example end_to_end distance_nm bearing_deg :
  let w := st_world (main_loop demo_clock demo_repr demo_json_loads
                       [position_line; name_line] (mk_loop empty_world 0)) in
  ∃ d, get_vessels distance_nm bearing_deg None None (demo_clock 10) w
       = Ok (PyList [PyDict d])
       ∧ assoc "mmsi" d = Some (PyStr "123456789")
       ∧ assoc "latitude" d = Some (PyFloat (Q2Qc 10))
       ∧ assoc "longitude" d = Some (PyFloat (Q2Qc 20))
       ∧ assoc "speed" d = Some (PyFloat (Q2Qc 5))
       ∧ assoc "name" d = Some (PyStr "TEST VESSEL").
Proof. eexists. split; [vm_compute; reflexivity|]. repeat split. Qed.

(** ** The shape of a time stamp *)

Lemma digit_char_ne n c :
  (Z.of_nat (nat_of_ascii c) < 48 ∨ 57 < Z.of_nat (nat_of_ascii c)) →
  ascii_of_nat (Z.to_nat (48 + n mod 10)) ≠ c.
Proof.
  intros Hc Heq. subst c.
  pose proof (Z.mod_pos_bound n 10 ltac:(lia)) as Hb.
  rewrite nat_ascii_embedding in Hc by lia. lia.
Qed.

Lemma remove_char_app c s1 s2 :
  remove_char c (s1 +:+ s2) = remove_char c s1 +:+ remove_char c s2.
Proof.
  induction s1 as [|a s1 IH]; simpl; [reflexivity|].
  case_bool_decide; simpl; rewrite IH; reflexivity.
Qed.

Lemma remove_char_zero_pad c w n acc :
  (Z.of_nat (nat_of_ascii c) < 48 ∨ 57 < Z.of_nat (nat_of_ascii c)) →
  remove_char c (zero_pad w n acc) = zero_pad w n (remove_char c acc).
Proof.
  intros Hc. revert n acc. induction w as [|w IH]; intros n acc; simpl.
  - reflexivity.
  - rewrite IH. simpl. case_bool_decide as E; [|reflexivity].
    exfalso. exact (digit_char_ne n c Hc E).
Qed.

(** The text of [isoformat] has no [Z] in it, so taking the [Z]s out of a
    stamp leaves the ISO text. *)
Lemma remove_Z_stamp t : remove_char "Z" (stamp t) = isoformat t.
Proof.
  assert (HZ : Z.of_nat (nat_of_ascii "Z") < 48 ∨ 57 < Z.of_nat (nat_of_ascii "Z"))
    by (right; vm_compute; reflexivity).
  unfold stamp. rewrite remove_char_app.
  change (remove_char "Z" "Z") with "".
  assert (Hnil : ∀ s : string, s +:+ "" = s).
  { induction s as [|a s IH]; [reflexivity|].
    change (String a s +:+ "") with (String a (s +:+ "")). f_equal. exact IH. }
  rewrite Hnil. unfold isoformat.
  destruct (ord2ymd (t / US_PER_DAY + 1)) as [[y m] d].
  repeat rewrite remove_char_app. repeat rewrite (remove_char_zero_pad "Z") by exact HZ.
  destruct (t mod US_PER_DAY mod US_PER_SECOND =? 0); [reflexivity|].
  rewrite remove_char_app, (remove_char_zero_pad "Z") by exact HZ. reflexivity.
Qed.

(** A stamp starts with a digit; it is never the text [Never]. *)
Lemma stamp_not_Never t : stamp t ≠ "Never".
Proof.
  unfold stamp, isoformat.
  destruct (ord2ymd (t / US_PER_DAY + 1)) as [[y m] d].
  simpl. intros H. injection H as H _.
  revert H. apply digit_char_ne. right. vm_compute. reflexivity.
Qed.

Lemma app_cons a s t : String a s +:+ t = String a (s +:+ t).
Proof. reflexivity. Qed.

Lemma string_app_assoc a b c : (a +:+ b) +:+ c = a +:+ (b +:+ c).
Proof.
  induction a as [|x a IH]; [reflexivity|].
  rewrite !app_cons, IH. reflexivity.
Qed.

Lemma isoformat_split t : isoformat t = iso_seconds t +:+ iso_fraction t.
Proof.
  unfold isoformat, iso_seconds, iso_fraction.
  destruct (ord2ymd (t / US_PER_DAY + 1)) as [[y m] d].
  cbv zeta. rewrite !string_app_assoc. reflexivity.
Qed.

Lemma compare_common_prefix p x y :
  String.compare (p +:+ x) (p +:+ y) = String.compare x y.
Proof.
  induction p as [|a p IH]; [reflexivity|].
  rewrite !app_cons. simpl. unfold Ascii.compare. rewrite N.compare_refl. exact IH.
Qed.

(** Within one second, the arithmetic of the stamp's fields. *)
Lemma same_second t d :
  t mod US_PER_SECOND = 0 → 0 < d < US_PER_SECOND →
  (t + d) / US_PER_DAY = t / US_PER_DAY
  ∧ (t + d) mod US_PER_DAY / US_PER_SECOND = t mod US_PER_DAY / US_PER_SECOND
  ∧ (t + d) mod US_PER_DAY mod US_PER_SECOND = d
  ∧ t mod US_PER_DAY mod US_PER_SECOND = 0.
Proof.
  unfold US_PER_DAY, US_PER_SECOND. intros Ht Hd.
  Z.to_euclidean_division_equations. lia.
Qed.

(** The stamp of a whole second compares greater than the stamp of every
    later instant of that second: after the nineteen characters they
    share, the one has [Z] where the other has the point. *)
Lemma whole_second_after_fraction t d :
  t mod US_PER_SECOND = 0 → 0 < d < US_PER_SECOND →
  String.compare (stamp t) (stamp (t + d)) = Gt.
Proof.
  intros Ht Hd. destruct (same_second t d Ht Hd) as (H1 & H2 & H3 & H4).
  unfold stamp. rewrite !isoformat_split, !string_app_assoc.
  assert (Hsec : iso_seconds (t + d) = iso_seconds t).
  { unfold iso_seconds. rewrite H1, H2. reflexivity. }
  rewrite Hsec, compare_common_prefix.
  unfold iso_fraction. rewrite H3, H4.
  destruct (d =? 0) eqn:E; [apply Z.eqb_eq in E; lia|].
  reflexivity.
Qed.

(** ** The last-message diagnostic *)

Section LastMessage.

Variable utc : nat -> Z.
Variable repr : pyval -> string.

(** The row a successful [upsert] wrote bears the stamp it was given. *)
Lemma upsert_last_updated u key now vs vs' :
  truthy key = true →
  upsert u key now vs = Ok vs' →
  ∃ r', find_vessel (sql_of key) vs' = Some r' ∧ r' last_updated = SText now.
Proof.
  intros Ht Hup. destruct (upsert_ok u key now vs vs' Hup) as [Hkey ->].
  destruct (existsb (fun r => sql_eq (r mmsi) (sql_of key)) vs) eqn:Hex.
  - rewrite (find_vessel_map (sql_of key)
               (assign (bound (update_fields u ++ [(last_updated, PyStr now)])))).
    2:{ intros r0. rewrite assign_update_fields. reflexivity. }
    destruct (find_vessel (sql_of key) vs) as [r|] eqn:Hr.
    + eexists. split; [reflexivity|]. rewrite assign_update_fields. reflexivity.
    + apply find_vessel_none in Hr. congruence.
  - eexists. split.
    + apply find_vessel_appended; [exact Hex|].
      rewrite assign_insert_values. apply sql_eq_refl.
      apply truthy_not_null; assumption.
    + rewrite assign_insert_values. reflexivity.
Qed.

(** C10. A vessel upsert that succeeds, by INSERT or by UPDATE, stamps the
    row's last_updated and sets the last_message_time diagnostic to the same
    stamp; a diagnostics request served afterwards at [t] reports that stamp
    as the last message and the whole seconds from the upsert to [t] as the
    seconds since the last message. *)
Theorem upsert_sets_last_message_time u w vs' :
  truthy (get u "mmsi" PyNone) = true →
  upsert u (get u "mmsi" PyNone) (stamp (utc (ticks w))) (vessels w) = Ok vs' →
  let now := stamp (utc (ticks w)) in
  let w' := update_vessel utc repr u w in
  (∃ r', find_vessel (sql_of (get u "mmsi" PyNone)) (vessels w') = Some r'
         ∧ r' last_updated = SText now)
  ∧ fst <$> diagnostics w' !! "last_message_time" = Some now
  ∧ ∀ fromisoformat h t,
      fromisoformat (isoformat (utc (ticks w))) = Some (utc (ticks w)) →
      ∃ d, get_diagnostics fromisoformat (fun _ => None) h t w' = Ok (PyDict d)
           ∧ assoc "last_message" d = Some (PyStr now)
           ∧ assoc "seconds_since_message" d
             = Some (PyInt (Z.quot (t - utc (ticks w)) US_PER_SECOND)).
Proof.
  intros Ht Hup now w'.
  assert (Hw' : w' = update_diagnostic utc repr "last_message_time" (PyStr now)
                       (set_vessels vs' (tick utc w))).
  { apply update_vessel_ok; assumption. }
  assert (Hdiag : fst <$> diagnostics w' !! "last_message_time" = Some now).
  { rewrite Hw', update_diagnostic_entry, lookup_insert_eq. reflexivity. }
  split; [|split; [exact Hdiag|]].
  - rewrite Hw', update_diagnostic_vessels. simpl.
    exact (upsert_last_updated u _ now (vessels w) vs' Ht Hup).
  - intros fromisoformat h t Hiso.
    unfold get_diagnostics, diagnostics_body, at_step, try_except.
    rewrite !bind_Ok, lookup_fmap, Hdiag.
    cbv zeta. simpl default.
    unfold seconds_since, try_except, at_step.
    case_bool_decide as Hnever; [exfalso; exact (stamp_not_Never _ Hnever)|].
    unfold now. rewrite remove_Z_stamp, Hiso, !bind_Ok.
    eexists. split; [reflexivity|]. split; reflexivity.
Qed.

End LastMessage.

Lemma upsert_sets_last_message_time_witness :
  let w' := update_vessel demo_clock demo_repr position_update demo_world in
  (∃ r', find_vessel demo_key (vessels w') = Some r'
         ∧ r' last_updated = SText "2024-01-05T12:00:00.250000Z")
  ∧ fst <$> diagnostics w' !! "last_message_time" = Some "2024-01-05T12:00:00.250000Z"
  ∧ ∃ d, get_diagnostics demo_fromisoformat (fun _ => None) (mk_host None 0)
           (datetime 2024 1 5 12 1 30 0) w' = Ok (PyDict d)
         ∧ assoc "last_message" d = Some (PyStr "2024-01-05T12:00:00.250000Z")
         ∧ assoc "seconds_since_message" d = Some (PyInt 89).
Proof.
  destruct (upsert_sets_last_message_time demo_clock demo_repr position_update demo_world
              (match upsert position_update (get position_update "mmsi" PyNone)
                       (stamp (demo_clock 0)) (vessels demo_world) with
               | Ok vs => vs
               | Raise _ => []
               end))
    as (Hrow & Hdiag & Hserve).
  - reflexivity.
  - vm_compute. reflexivity.
  - split; [exact Hrow|]. split; [exact Hdiag|].
    apply (Hserve demo_fromisoformat (mk_host None 0) (datetime 2024 1 5 12 1 30 0)).
    vm_compute. reflexivity.
Defined.

(** ** The vessel query and the clean-up *)

Lemma sql_compare_antisym a b c :
  sql_compare a b = Some c → sql_compare b a = Some (CompOpp c).
Proof.
  destruct a, b; simpl; try discriminate; intros [= <-]; try reflexivity.
  - rewrite Z.compare_antisym. reflexivity.
  - unfold Qccompare. rewrite Qcompare_antisym. reflexivity.
  - unfold Qccompare. rewrite Qcompare_antisym. reflexivity.
  - unfold Qccompare. rewrite Qcompare_antisym. reflexivity.
  - rewrite String.compare_antisym. reflexivity.
Qed.

Lemma order_le_total a b : order_le a b = false → order_le b a = true.
Proof.
  destruct b as [|y|q|t]; [destruct a; reflexivity| | |];
    (destruct a as [|x|p|s]; [discriminate| | |]); intros H;
    match goal with
    | |- order_le ?b ?a = true =>
        assert (Hgt : sql_compare a b = Some Gt);
        [ unfold order_le, sql_gt in H; simpl in *;
          first [ discriminate | reflexivity
                | apply negb_false_iff in H;
                  match goal with
                  | H : match ?c with _ => _ end = true |- _ =>
                      destruct c; try discriminate
                  end; reflexivity ]
        | apply sql_compare_antisym in Hgt; unfold order_le, sql_gt; rewrite Hgt;
          reflexivity ]
    end.
Qed.

Lemma insert_desc_perm r l : Permutation (insert_desc r l) (r :: l).
Proof.
  induction l as [|x l IH]; simpl.
  - reflexivity.
  - destruct (order_le (x last_updated) (r last_updated)); [reflexivity|].
    rewrite IH. apply perm_swap.
Qed.

Lemma insert_desc_sorted r l :
  Sorted newer_first l → Sorted newer_first (insert_desc r l).
Proof.
  induction 1 as [|x l Hl IH Hhd]; simpl.
  - repeat constructor.
  - destruct (order_le (x last_updated) (r last_updated)) eqn:E.
    + constructor; [constructor; assumption|]. constructor. exact E.
    + constructor; [exact IH|].
      destruct l as [|y l]; simpl.
      * constructor. apply order_le_total. exact E.
      * destruct (order_le (y last_updated) (r last_updated));
          constructor; [apply order_le_total; exact E|].
        inversion Hhd; assumption.
Qed.

(** The rows [get_vessels] fetches are those of the table that satisfy its
    WHERE clause, each as often as it is there, newest stamp first. *)
Lemma select_vessels_spec now vs :
  Permutation (select_vessels now vs)
    (List.filter (recent_with_position (cutoff now)) vs)
  ∧ Sorted newer_first (select_vessels now vs).
Proof.
  unfold select_vessels, order_desc.
  induction (List.filter (recent_with_position (cutoff now)) vs) as [|r l [IHp IHs]];
    simpl.
  - split; [reflexivity | constructor].
  - split.
    + rewrite insert_desc_perm. constructor. exact IHp.
    + apply insert_desc_sorted. exact IHs.
Qed.

(** Without a reference position the request cannot fail: the response
    lists the rows fetched, in their order. *)
Lemma get_vessels_without_reference distance_nm bearing_deg now w :
  get_vessels distance_nm bearing_deg None None now w
  = Ok (PyList (map (fun r => PyDict (vessel_json r))
                  (select_vessels now (vessels w)))).
Proof.
  unfold get_vessels.
  assert (H : ∀ rows, vessel_entries distance_nm bearing_deg None None rows
                      = Ok (map (fun r => PyDict (vessel_json r)) rows)).
  { induction rows as [|r rows IH]; [reflexivity|].
    simpl. rewrite IH. reflexivity. }
  rewrite H. reflexivity.
Qed.

(** The clean-up splits the table by its WHERE clause and reports the
    number of rows it took out. *)
Lemma cleanup_old_data_spec now w :
  let '(resp, w') := cleanup_old_data now w in
  resp = PyDict [("deleted", PyInt (Z.of_nat (length (vessels w)) -
                                    Z.of_nat (length (vessels w'))))]
  ∧ vessels w' = List.filter (fun r => negb (stale (cutoff now) r)) (vessels w)
  ∧ diagnostics w' = diagnostics w ∧ files w' = files w.
Proof.
  simpl. repeat split. do 4 f_equal.
  induction (vessels w) as [|r l IH]; simpl; [reflexivity|].
  destruct (stale (cutoff now) r); simpl; lia.
Qed.

(** The stamp of a whole second sorts after every stamp of that second
    with a fraction, the later instants included. *)
Example whole_second_sorts_last :
  let t := datetime 2024 1 3 12 0 0 0 in
  stamp t = "2024-01-03T12:00:00Z"
  ∧ stamp (t + 500000) = "2024-01-03T12:00:00.500000Z"
  ∧ sql_gt (SText (stamp t)) (SText (stamp (t + 500000))) = true.
Proof. vm_compute. auto. Qed.

Lemma cutoff_after_48h t : cutoff (t + hours 48) = stamp t.
Proof. unfold cutoff. f_equal. lia. Qed.

(** A row stamped on a whole second is, for the rest of the second that
    follows the end of its 48 hours, still fetched by the query and kept by
    the clean-up. *)
Lemma whole_second_row_outlives_window t0 d r vs :
  t0 mod US_PER_SECOND = 0 → 0 < d < US_PER_SECOND →
  r last_updated = SText (stamp t0) →
  is_not_null (r latitude) = true → is_not_null (r longitude) = true →
  In r vs →
  t0 < (t0 + d + hours 48) - hours 48
  ∧ In r (select_vessels (t0 + d + hours 48) vs)
  ∧ stale (cutoff (t0 + d + hours 48)) r = false.
Proof.
  intros Ht Hd Hlu Hlat Hlon Hin.
  pose proof (whole_second_after_fraction t0 d Ht Hd) as Hcmp.
  split; [lia|]. rewrite cutoff_after_48h. split.
  - destruct (select_vessels_spec (t0 + d + hours 48) vs) as [Hperm _].
    apply (Permutation_in _ (Permutation_sym Hperm)).
    apply filter_In. split; [exact Hin|].
    unfold recent_with_position. rewrite cutoff_after_48h, Hlat, Hlon, Hlu.
    unfold sql_gt. simpl. rewrite Hcmp. reflexivity.
  - unfold stale, sql_lt. rewrite Hlu. simpl. rewrite Hcmp. reflexivity.
Qed.

(** A row stamped within a second after a whole second is, at the end of
    48 hours from that whole second, not fetched by the query and is taken
    out by the clean-up, before its own 48 hours are over. *)
Lemma fraction_row_leaves_window_early t0 d r vs :
  t0 mod US_PER_SECOND = 0 → 0 < d < US_PER_SECOND →
  r last_updated = SText (stamp (t0 + d)) →
  (t0 + hours 48) - hours 48 < t0 + d
  ∧ ¬ In r (select_vessels (t0 + hours 48) vs)
  ∧ stale (cutoff (t0 + hours 48)) r = true.
Proof.
  intros Ht Hd Hlu.
  pose proof (whole_second_after_fraction t0 d Ht Hd) as Hcmp.
  assert (Hlt : String.compare (stamp (t0 + d)) (stamp t0) = Lt).
  { rewrite String.compare_antisym, Hcmp. reflexivity. }
  split; [lia|]. rewrite cutoff_after_48h. split.
  - intros Hin.
    destruct (select_vessels_spec (t0 + hours 48) vs) as [Hperm _].
    apply (Permutation_in _ Hperm) in Hin. apply filter_In in Hin as [_ Hw].
    unfold recent_with_position in Hw. rewrite cutoff_after_48h, Hlu in Hw.
    unfold sql_gt in Hw. simpl in Hw. rewrite Hlt in Hw.
    rewrite andb_false_r in Hw. discriminate.
  - unfold stale, sql_lt. rewrite Hlu. simpl. rewrite Hlt. reflexivity.
Qed.

(** C3 (code at the failing input). A vessel with a position is upserted
    when the clock reads exactly 2024-01-03 12:00:00; the list query made
    48 hours and half a second later still returns it, its stamp
    [2024-01-03T12:00:00Z] comparing greater than the cutoff
    [2024-01-03T12:00:00.500000Z]. And a vessel upserted half a second after
    12:00:00 is not returned by the query made 48 hours after 12:00:00,
    when it is 47 h 59 min 59.5 s old. *)
Theorem get_vessels_whole_second distance_nm bearing_deg :
  let t0 := datetime 2024 1 3 12 0 0 0 in
  let stale_world := update_vessel whole_second_clock demo_repr position_data empty_world in
  let fresh_world := update_vessel half_second_clock demo_repr position_data empty_world in
  (t0 < (t0 + hours 48 + 500000) - hours 48
   ∧ ∃ d, get_vessels distance_nm bearing_deg None None (t0 + hours 48 + 500000)
            stale_world = Ok (PyList [PyDict d])
          ∧ assoc "timestamp" d = Some (PyStr "2024-01-03T12:00:00Z"))
  ∧ ((t0 + hours 48) - hours 48 < t0 + 500000
     ∧ length (vessels fresh_world) = 1%nat
     ∧ get_vessels distance_nm bearing_deg None None (t0 + hours 48) fresh_world
       = Ok (PyList [])).
Proof.
  split.
  - split; [vm_compute; reflexivity|].
    eexists. split; [vm_compute; reflexivity | reflexivity].
  - split; [vm_compute; reflexivity|]. split; vm_compute; reflexivity.
Qed.

(** C5 (code at the failing input). The same two stores: the clean-up run
    48 hours and half a second after the whole-second upsert deletes
    nothing and reports 0, though the row is older than the window; the
    clean-up run 48 hours after 12:00:00 deletes the row upserted half a
    second past 12:00:00 and reports 1, though the row is inside the
    window. *)
Theorem cleanup_whole_second :
  let t0 := datetime 2024 1 3 12 0 0 0 in
  let stale_world := update_vessel whole_second_clock demo_repr position_data empty_world in
  let fresh_world := update_vessel half_second_clock demo_repr position_data empty_world in
  (t0 < (t0 + hours 48 + 500000) - hours 48
   ∧ (cleanup_old_data (t0 + hours 48 + 500000) stale_world).1
     = PyDict [("deleted", PyInt 0)]
   ∧ length (vessels (cleanup_old_data (t0 + hours 48 + 500000) stale_world).2) = 1%nat)
  ∧ ((t0 + hours 48) - hours 48 < t0 + 500000
     ∧ (cleanup_old_data (t0 + hours 48) fresh_world).1 = PyDict [("deleted", PyInt 1)]
     ∧ vessels (cleanup_old_data (t0 + hours 48) fresh_world).2 = []).
Proof.
  split; split; try (vm_compute; reflexivity); split; vm_compute; reflexivity.
Qed.

(** ** The diagnostics request *)

Section DiagnosticsFaults.

Variable fromisoformat : string -> option Z.
Variable fault : step -> option exn.

(** A fault at any place outside the two inner handlers makes the body of
    the [try] raise it (the first such place decides). *)
Lemma diagnostics_body_raises h now w s e :
  s ∈ [Connect; CountVessels; StatStore; SelectDiagnostics; Enumerate; Respond] →
  fault s = Some e →
  ∃ e', diagnostics_body fromisoformat fault h now w = Raise e'.
Proof.
  intros Hs He. unfold diagnostics_body, at_step.
  destruct (fault Connect) eqn:H1; [eexists; reflexivity|]. rewrite bind_Ok.
  destruct (fault CountVessels) eqn:H2; [eexists; reflexivity|]. rewrite bind_Ok.
  destruct (fault StatStore) eqn:H3; [eexists; reflexivity|]. rewrite bind_Ok.
  destruct (fault SelectDiagnostics) eqn:H4; [eexists; reflexivity|]. rewrite bind_Ok.
  destruct (fault Enumerate) eqn:H5; [eexists; reflexivity|]. rewrite bind_Ok.
  cbv zeta.
  destruct (seconds_since _ _ _ _) as [secs|e'']; [|eexists; reflexivity].
  rewrite bind_Ok.
  destruct (fault Respond) eqn:H6; [eexists; reflexivity|].
  repeat (apply elem_of_cons in Hs as [->|Hs]); try congruence. inversion Hs.
Qed.

(** C6. The diagnostics request never fails outward: whatever faults the
    host raises while it is served, [get_diagnostics] returns a response;
    when the body of its [try] raised [e], the response is the one of the
    handler: the text of [e] under [error], a vessel count of 0, a store
    size of 0 and no receiver; and a fault at any place outside the two
    inner handlers does make the body raise. *)
Theorem get_diagnostics_never_fails h now w :
  ∃ resp, get_diagnostics fromisoformat fault h now w = Ok resp
    ∧ (∀ e, diagnostics_body fromisoformat fault h now w = Raise e →
            resp = error_response e
            ∧ ∃ d, resp = PyDict d
                   ∧ assoc "error" d = Some (PyStr (exn_message e))
                   ∧ assoc "vessel_count" d = Some (PyInt 0)
                   ∧ assoc "db_size_mb" d = Some (PyInt 0)
                   ∧ assoc "rtl_sdr_connected" d = Some (PyBool false))
    ∧ (∀ s e, s ∈ [Connect; CountVessels; StatStore; SelectDiagnostics;
                   Enumerate; Respond] →
              fault s = Some e →
              ∃ e', diagnostics_body fromisoformat fault h now w = Raise e').
Proof.
  unfold get_diagnostics, try_except.
  destruct (diagnostics_body fromisoformat fault h now w) as [resp|e] eqn:Hbody.
  - exists resp. split; [reflexivity|]. split; [intros e He; discriminate|].
    intros s e Hs He.
    destruct (diagnostics_body_raises h now w s e Hs He) as [e' He'].
    rewrite Hbody in He'. discriminate.
  - exists (error_response e). split; [reflexivity|]. split.
    + intros e' [= <-]. split; [reflexivity|].
      eexists. split; [reflexivity|]. repeat split.
    + intros s e0 _ _. exists e. reflexivity.
Qed.

End DiagnosticsFaults.

(** The store cannot be opened: the request still answers. *)
Example get_diagnostics_locked_store :
  get_diagnostics demo_fromisoformat
    (fun s => match s with
              | Connect => Some (Fault "unable to open database file")
              | _ => None
              end)
    (mk_host None 1) (demo_clock 0) demo_world
  = Ok (PyDict [ ("error", PyStr "unable to open database file");
                 ("vessel_count", PyInt 0);
                 ("db_size_mb", PyInt 0);
                 ("rtl_sdr_connected", PyBool false) ]).
Proof. reflexivity. Qed.

(** No fault and nothing logged: the regular response. *)
Example get_diagnostics_regular :
  get_diagnostics demo_fromisoformat (fun _ => None) (mk_host (Some 1572864) 0)
    (demo_clock 0) demo_world
  = Ok (PyDict [ ("vessel_count", PyInt 1);
                 ("db_size_mb", PyFloat (Q2Qc (150 # 100)));
                 ("last_message", PyStr "Never");
                 ("seconds_since_message", PyInt 999999);
                 ("rtl_sdr_connected", PyBool true);
                 ("ais_catcher_status", PyStr "Unknown");
                 ("total_messages", PyInt 0);
                 ("recent_errors", PyList []) ]).
Proof. vm_compute. reflexivity. Qed.
(** * Further properties of the code *)

(** ** The error log *)

Lemma getsize_app f g : getsize (f ++ g) = getsize f + getsize g.
Proof.
  induction f as [|x f IH]; [reflexivity|].
  change (getsize ((x :: f) ++ g)) with (len x + getsize (f ++ g)).
  change (getsize (x :: f)) with (len x + getsize f). rewrite IH. lia.
Qed.

Section ErrorLogMore.

Variable utc : nat -> Z.

(** The files after an append that rotates. *)
Lemma log_error_rotates_files msg w f :
  files w !! ERROR_LOG = Some f →
  MAX_LOG_SIZE < getsize f →
  files (log_error utc msg w)
  = <[ERROR_LOG := [log_line utc (ticks w) msg]]>
      (<[BACKUP := f]> (delete ERROR_LOG (delete BACKUP (files w)))).
Proof.
  intros Hf Hbig. unfold log_error, rotate. simpl. rewrite Hf.
  apply Z.ltb_lt in Hbig. rewrite Hbig. fold BACKUP.
  unfold append, remove, rename.
  case_bool_decide as Hold.
  - rewrite lookup_delete_ne by exact backup_ne_log. rewrite Hf.
    rewrite lookup_insert_ne by exact backup_ne_log.
    rewrite lookup_delete_eq. reflexivity.
  - rewrite Hf. rewrite lookup_insert_ne by exact backup_ne_log.
    rewrite lookup_delete_eq.
    assert (Hnone : files w !! BACKUP = None).
    { destruct (files w !! BACKUP) eqn:E; [|reflexivity]. exfalso. apply Hold. eauto. }
    rewrite (delete_id (files w) BACKUP) by exact Hnone. reflexivity.
Qed.

(** The log after an append: the line written comes last, after the log
    as it was or after nothing. *)
Lemma log_error_log msg w :
  ∃ f, files (log_error utc msg w) !! ERROR_LOG
       = Some (f ++ [log_line utc (ticks w) msg])
       ∧ (f = [] ∨ files w !! ERROR_LOG = Some f).
Proof.
  destruct (files w !! ERROR_LOG) as [f0|] eqn:Hf.
  - destruct (Z_le_gt_dec (getsize f0) MAX_LOG_SIZE) as [Hle|Hgt].
    + exists f0. rewrite log_error_appends.
      2:{ intros f' Hf'. rewrite Hf in Hf'. injection Hf' as <-. exact Hle. }
      rewrite Hf. split; [apply lookup_insert_eq | auto].
    + exists []. rewrite (log_error_rotates_files msg w f0 Hf) by lia.
      split; [apply lookup_insert_eq | auto].
  - exists []. rewrite log_error_appends.
    2:{ intros f' Hf'. rewrite Hf in Hf'. discriminate. }
    rewrite Hf. split; [apply lookup_insert_eq | auto].
Qed.

(** X1. After every append the log exists, ends with the line just
    written, and is no larger than the threshold plus that line: what came
    before the line is the log as it was, or nothing when the log was
    over the threshold and became the backup. *)
Theorem log_error_bounded msg w :
  let w' := log_error utc msg w in
  let line := log_line utc (ticks w) msg in
  ∃ f, files w' !! ERROR_LOG = Some (f ++ [line])
       ∧ getsize (f ++ [line]) <= MAX_LOG_SIZE + len line
       ∧ (files w !! ERROR_LOG = None → f = [])
       ∧ ∀ f0, files w !! ERROR_LOG = Some f0 →
               (getsize f0 <= MAX_LOG_SIZE ∧ f = f0)
               ∨ (MAX_LOG_SIZE < getsize f0 ∧ f = []
                  ∧ files w' !! BACKUP = Some f0).
Proof.
  intros w' line.
  assert (Hline : getsize [line] = len line) by (simpl; lia).
  destruct (files w !! ERROR_LOG) as [f0|] eqn:Hf.
  - destruct (Z_le_gt_dec (getsize f0) MAX_LOG_SIZE) as [Hle|Hgt].
    + exists f0. subst w'. rewrite log_error_appends.
      2:{ intros f' Hf'. rewrite Hf in Hf'. injection Hf' as <-. exact Hle. }
      rewrite Hf, lookup_insert_eq. simpl default.
      split; [reflexivity|]. split; [rewrite getsize_app, Hline; lia|].
      split; [discriminate|]. intros f1 [= <-]. left. auto.
    + exists []. subst w'. rewrite (log_error_rotates_files msg w f0 Hf) by lia.
      rewrite lookup_insert_eq. split; [reflexivity|].
      split; [simpl app; rewrite Hline; unfold MAX_LOG_SIZE; lia|].
      split; [discriminate|]. intros f1 [= <-]. right.
      split; [lia|]. split; [reflexivity|].
      rewrite lookup_insert_ne by (intros E; symmetry in E; exact (backup_ne_log E)).
      apply lookup_insert_eq.
  - exists []. subst w'. rewrite log_error_appends.
    2:{ intros f' Hf'. rewrite Hf in Hf'. discriminate. }
    rewrite Hf, lookup_insert_eq. simpl default.
    split; [reflexivity|]. split; [simpl app; rewrite Hline; unfold MAX_LOG_SIZE; lia|].
    split; [reflexivity|]. intros f1 [=].
Qed.

(** X2. A log of at most 10 MiB, exactly 10 MiB included, is not rotated:
    the append keeps every line of it and adds the new one, and the backup
    and all other files are as they were. *)
Theorem log_within_threshold_kept msg w f :
  files w !! ERROR_LOG = Some f →
  getsize f <= MAX_LOG_SIZE →
  let w' := log_error utc msg w in
  files w' !! ERROR_LOG = Some (f ++ [log_line utc (ticks w) msg])
  ∧ ∀ p, p ≠ ERROR_LOG → files w' !! p = files w !! p.
Proof.
  intros Hf Hle w'. subst w'. rewrite log_error_appends.
  2:{ intros f' Hf'. rewrite Hf in Hf'. injection Hf' as <-. exact Hle. }
  rewrite Hf. simpl default. split; [apply lookup_insert_eq|].
  intros p Hp. apply lookup_insert_ne. congruence.
Qed.

End ErrorLogMore.

Lemma log_within_threshold_kept_witness :
  let utc := fun _ : nat => datetime 2024 1 5 12 0 0 0 in
  let w' := log_error utc "boom" full_log_world in
  files w' !! ERROR_LOG = Some (full_log ++ [log_line utc 0 "boom"])
  ∧ ∀ p, p ≠ ERROR_LOG → files w' !! p = files full_log_world !! p.
Proof.
  intros utc.
  apply (log_within_threshold_kept utc "boom" full_log_world full_log).
  - unfold full_log_world. simpl.
    rewrite lookup_insert_ne by exact backup_ne_log. apply lookup_singleton_eq.
  - unfold full_log. rewrite getsize_repeat. vm_compute. discriminate.
Defined.

(** ** Upserts *)




Lemma effective_in_update_fields c u v :
  effective c u = Some v → In (c, v) (update_fields u).
Proof.
  unfold update_fields, present, effective, carried.
  destruct c; simpl; try discriminate; intros H;
    try (rewrite H; rewrite !in_app_iff; simpl; tauto).
  destruct (u !! "name") as [x|]; [|discriminate].
  destruct (truthy x); [|discriminate]. injection H as ->.
  rewrite !in_app_iff. simpl. tauto.
Qed.

Lemma bind_sets_unbindable i sets c v :
  In (c, v) sets → bindable v = false → ∃ e, bind_sets i sets = Raise e.
Proof.
  intros Hin Hv. destruct (bind_sets i sets) as [bs|e] eqn:E; [|eauto].
  apply bind_sets_bindable in E as [Hall _].
  rewrite List.Forall_forall in Hall. specialize (Hall _ Hin). simpl in Hall. congruence.
Qed.

Section Upserts.

Variable utc : nat -> Z.
Variable repr : pyval -> string.

(** [update_vessel] when one of its statements raises. *)
Lemma update_vessel_raise u w e :
  truthy (get u "mmsi" PyNone) = true →
  upsert u (get u "mmsi" PyNone) (stamp (utc (ticks w))) (vessels w) = Raise e →
  update_vessel utc repr u w
  = log_error utc ("Failed to update vessel " +:+ str repr (get u "mmsi" PyNone)
                   +:+ ": " +:+ exn_message e) (tick utc w).
Proof.
  intros Ht Hup. unfold update_vessel. rewrite Ht. simpl. rewrite Hup. reflexivity.
Qed.

(** X3. An update of an existing row is all or nothing: when one value it
    would write cannot be bound (an array, an object, an integer beyond 64
    bits), none of its fields is written, the last-message diagnostic is
    not touched, and the failure is logged. *)
Theorem unbindable_value_rejects_update u w c v :
  truthy (get u "mmsi" PyNone) = true →
  existsb (fun r => sql_eq (r mmsi) (sql_of (get u "mmsi" PyNone))) (vessels w) = true →
  effective c u = Some v →
  bindable v = false →
  ∃ e, update_vessel utc repr u w
       = log_error utc ("Failed to update vessel " +:+ str repr (get u "mmsi" PyNone)
                        +:+ ": " +:+ exn_message e) (tick utc w)
       ∧ vessels (update_vessel utc repr u w) = vessels w
       ∧ diagnostics (update_vessel utc repr u w) = diagnostics w.
Proof.
  intros Ht Hex Hc Hv.
  assert (Hraise : ∃ e, upsert u (get u "mmsi" PyNone) (stamp (utc (ticks w))) (vessels w)
                        = Raise e).
  { unfold upsert, select_mmsi.
    destruct (bind_param 0 (get u "mmsi" PyNone)) as [k|e] eqn:Hk; [|eauto].
    apply bind_param_bindable in Hk as [Hkey ->]. rewrite !bind_Ok, Hex.
    unfold sql_update.
    destruct (bind_sets_unbindable 0
                (update_fields u ++ [(last_updated, PyStr (stamp (utc (ticks w))))]) c v)
      as [e He]; [apply in_or_app; left; apply effective_in_update_fields; exact Hc
                 | exact Hv |].
    rewrite He. eauto. }
  destruct Hraise as [e He]. exists e.
  rewrite (update_vessel_raise u w e Ht He). repeat split.
Qed.



End Upserts.

Lemma unbindable_value_rejects_update_witness :
  ∃ e, update_vessel demo_clock demo_repr array_callsign_update demo_world
       = log_error demo_clock
           ("Failed to update vessel "
            +:+ str demo_repr (get array_callsign_update "mmsi" PyNone)
            +:+ ": " +:+ exn_message e) (tick demo_clock demo_world)
       ∧ vessels (update_vessel demo_clock demo_repr array_callsign_update demo_world)
         = vessels demo_world
       ∧ diagnostics (update_vessel demo_clock demo_repr array_callsign_update demo_world)
         = diagnostics demo_world.
Proof.
  apply (unbindable_value_rejects_update demo_clock demo_repr
           array_callsign_update demo_world callsign (PyList [PyStr "PB"; PyStr "XY"]));
    vm_compute; reflexivity.
Defined.




(** ** What no update writes *)

Lemma find_vessel_map_keys k (h : row -> row) vs :
  (∀ r, h r mmsi = r mmsi) →
  find_vessel k (List.map h vs) = h <$> find_vessel k vs.
Proof.
  intros Hh. unfold find_vessel. induction vs as [|x vs IH]; simpl; [reflexivity|].
  rewrite Hh. destruct (sql_eq (x mmsi) k); [reflexivity | exact IH].
Qed.

Lemma find_vessel_app_l k vs xs r :
  find_vessel k vs = Some r → find_vessel k (vs ++ xs) = Some r.
Proof.
  unfold find_vessel. induction vs as [|x vs IH]; simpl; [discriminate|].
  destruct (sql_eq (x mmsi) k); [trivial | exact IH].
Qed.

Section StaticColumns.

Variable utc : nat -> Z.
Variable repr : pyval -> string.

Lemma update_vessel_static k u w r :
  find_vessel k (vessels w) = Some r →
  ∃ r', find_vessel k (vessels (update_vessel utc repr u w)) = Some r'
        ∧ ∀ c, c ∈ static_columns → r' c = r c.
Proof.
  intros Hr. unfold update_vessel.
  destruct (negb (truthy (get u "mmsi" PyNone))); [eauto|]. simpl.
  destruct (upsert u (get u "mmsi" PyNone) (stamp (utc (ticks w))) (vessels w))
    as [vs'|e] eqn:Hup; [|rewrite log_error_vessels; simpl; eauto].
  rewrite update_diagnostic_vessels. simpl vessels.
  destruct (upsert_ok _ _ _ _ _ Hup) as [_ ->].
  destruct (existsb (fun r => sql_eq (r mmsi) (sql_of (get u "mmsi" PyNone)))
              (vessels w)).
  - rewrite find_vessel_map_keys.
    2:{ intros r0. destruct (sql_eq (r0 mmsi) _); [|reflexivity].
        rewrite assign_update_fields. reflexivity. }
    unfold row in *. rewrite Hr. simpl. eexists. split; [reflexivity|].
    intros c Hc. destruct (sql_eq (r mmsi) _); [|reflexivity].
    rewrite assign_update_fields. unfold static_columns in Hc.
    repeat (apply elem_of_cons in Hc as [->|Hc]); try reflexivity. inversion Hc.
  - exists r. split; [apply find_vessel_app_l; exact Hr | reflexivity].
Qed.

(** X6. Whatever updates arrive, for whatever keys, well-formed or not, a
    row that exists keeps its key, its timestamp (the time of the first
    write), and its imo, dimensions and draught: no update writes them. *)
Theorem static_columns_never_written k us w r :
  find_vessel k (vessels w) = Some r →
  ∃ r', find_vessel k (vessels (apply_updates utc repr us w)) = Some r'
        ∧ ∀ c, c ∈ static_columns → r' c = r c.
Proof.
  revert w r. induction us as [|u us IH]; intros w r Hr; [simpl; eauto|].
  destruct (update_vessel_static k u w r Hr) as (r1 & Hr1 & H1).
  destruct (IH _ _ Hr1) as (r2 & Hr2 & H2).
  exists r2. split; [exact Hr2|]. intros c Hc. rewrite (H2 c Hc). exact (H1 c Hc).
Qed.


End StaticColumns.

Lemma static_columns_never_written_witness :
  ∃ r', find_vessel demo_key
          (vessels (apply_updates demo_clock demo_repr
                      [position_update; array_callsign_update; position_data; name_update]
                      demo_world)) = Some r'
        ∧ ∀ c, c ∈ static_columns → r' c = demo_row c.
Proof.
  apply (static_columns_never_written demo_clock demo_repr demo_key
           [position_update; array_callsign_update; position_data; name_update]
           demo_world demo_row).
  reflexivity.
Defined.


(** ** The record and the update built from it *)

Lemma copy_field_ne d src dst (vd : gmap string pyval) k :
  dst ≠ k → copy_field d src dst vd !! k = vd !! k.
Proof.
  intros Hne. unfold copy_field. destruct (assoc src d); [|reflexivity].
  apply lookup_insert_ne. exact Hne.
Qed.

Lemma copy_field_eq d src dst (vd : gmap string pyval) :
  vd !! dst = None → copy_field d src dst vd !! dst = assoc src d.
Proof.
  intros Hnone. unfold copy_field. destruct (assoc src d); [|exact Hnone].
  apply lookup_insert_eq.
Qed.

Lemma copy_stripped_ne d src dst (vd vd' : gmap string pyval) k :
  copy_stripped d src dst vd = Ok vd' → dst ≠ k → vd' !! k = vd !! k.
Proof.
  unfold copy_stripped. intros H Hne.
  destruct (assoc src d) as [[]|]; simpl in H; try discriminate;
    injection H as H; subst vd'; [apply lookup_insert_ne; exact Hne | reflexivity].
Qed.

Lemma copy_stripped_eq d src dst (vd vd' : gmap string pyval) :
  copy_stripped d src dst vd = Ok vd' → vd !! dst = None →
  vd' !! dst = stripped <$> assoc src d
  ∧ ∀ v, assoc src d = Some v → is_text v = true.
Proof.
  unfold copy_stripped. intros H Hnone.
  destruct (assoc src d) as [[]|]; simpl in H; try discriminate;
    injection H as H; subst vd'.
  - split; [apply lookup_insert_eq|]. intros v [= <-]. reflexivity.
  - split; [exact Hnone | discriminate].
Qed.

Lemma copy_stripped_total d src dst (vd : gmap string pyval) :
  (∃ vd', copy_stripped d src dst vd = Ok vd')
  ∨ ∃ ty, copy_stripped d src dst vd = Raise (AttributeError ty "strip").
Proof.
  unfold copy_stripped. destruct (assoc src d) as [[]|]; eauto.
Qed.

(** A text field that could be copied held text. *)
Lemma copy_stripped_ok_text d src dst (vd vd' : gmap string pyval) v :
  copy_stripped d src dst vd = Ok vd' → assoc src d = Some v → is_text v = true.
Proof.
  unfold copy_stripped. intros H Hv. rewrite Hv in H.
  destruct v; try discriminate. reflexivity.
Qed.

Lemma vessel_data_of_text d vd src dst :
  vessel_data_of (PyDict d) = Ok vd →
  (src, dst) ∈ text_fields →
  ∀ v, assoc src d = Some v → is_text v = true.
Proof.
  unfold vessel_data_of.
  destruct (copy_stripped d "shipname" "name" _) as [vd1|] eqn:H1; [|discriminate].
  rewrite bind_Ok.
  destruct (copy_stripped d "callsign" "callsign" _) as [vd2|] eqn:H2; [|discriminate].
  rewrite bind_Ok.
  destruct (copy_stripped d "destination" "destination" _) as [vd3|] eqn:H3;
    [|discriminate].
  intros _ Hin v Hv. unfold text_fields in Hin.
  repeat (apply elem_of_cons in Hin as [Hin|Hin]); try (inversion Hin; fail);
    injection Hin as -> ->;
    [exact (copy_stripped_ok_text _ _ _ _ _ _ H1 Hv)
    |exact (copy_stripped_ok_text _ _ _ _ _ _ H2 Hv)
    |exact (copy_stripped_ok_text _ _ _ _ _ _ H3 Hv)].
Qed.

(** X8. The update built from a record renames its fields: lat, lon,
    shiptype and status become latitude, longitude, vessel_type and
    nav_status, shipname becomes name; the three text fields are stored
    stripped; the key is always there, None when the record has none; a
    field missing from the record is missing from the update, and the
    update has no other key. *)
Theorem vessel_data_of_fields d vd :
  vessel_data_of (PyDict d) = Ok vd →
  vd !! "mmsi" = Some (default PyNone (assoc "mmsi" d))
  ∧ vd !! "latitude" = assoc "lat" d
  ∧ vd !! "longitude" = assoc "lon" d
  ∧ vd !! "speed" = assoc "speed" d
  ∧ vd !! "course" = assoc "course" d
  ∧ vd !! "heading" = assoc "heading" d
  ∧ vd !! "vessel_type" = assoc "shiptype" d
  ∧ vd !! "nav_status" = assoc "status" d
  ∧ (∀ src dst, (src, dst) ∈ text_fields →
       vd !! dst = stripped <$> assoc src d
       ∧ ∀ v, assoc src d = Some v → is_text v = true)
  ∧ ∀ k, k ∉ ["mmsi"; "latitude"; "longitude"; "speed"; "course"; "heading"; "name";
              "vessel_type"; "callsign"; "destination"; "nav_status"] →
         vd !! k = None.
Proof.
  unfold vessel_data_of.
  destruct (copy_stripped d "shipname" "name" _) as [vd1|] eqn:H1; [|discriminate].
  rewrite bind_Ok.
  destruct (copy_stripped d "callsign" "callsign" _) as [vd2|] eqn:H2; [|discriminate].
  rewrite bind_Ok.
  destruct (copy_stripped d "destination" "destination" _) as [vd3|] eqn:H3;
    [|discriminate].
  rewrite bind_Ok. intros H. injection H as H. subst vd.
  pose proof (copy_stripped_ne _ _ _ _ _ "mmsi" H1) as N1m.
  assert (Hthrough : ∀ k,
            copy_field d "status" "nav_status" vd3 !! k
            = if bool_decide (k = "nav_status") then
                copy_field d "status" "nav_status" vd3 !! k
              else if bool_decide (k = "destination") then vd3 !! k
              else if bool_decide (k = "callsign") then vd2 !! k
              else if bool_decide (k = "vessel_type") then
                copy_field d "shiptype" "vessel_type" vd1 !! k
              else if bool_decide (k = "name") then vd1 !! k
              else
                copy_field d "heading" "heading"
                  (copy_field d "course" "course"
                     (copy_field d "speed" "speed"
                        (copy_field d "lon" "longitude"
                           (copy_field d "lat" "latitude"
                              {[ "mmsi" := default PyNone (assoc "mmsi" d) ]})))) !! k).
  { intros k. repeat case_bool_decide; try reflexivity.
    - rewrite copy_field_ne by congruence. reflexivity.
    - rewrite copy_field_ne by congruence.
      rewrite (copy_stripped_ne _ _ _ _ _ k H3) by congruence. reflexivity.
    - rewrite copy_field_ne by congruence.
      rewrite (copy_stripped_ne _ _ _ _ _ k H3) by congruence.
      rewrite (copy_stripped_ne _ _ _ _ _ k H2) by congruence. reflexivity.
    - rewrite copy_field_ne by congruence.
      rewrite (copy_stripped_ne _ _ _ _ _ k H3) by congruence.
      rewrite (copy_stripped_ne _ _ _ _ _ k H2) by congruence.
      rewrite copy_field_ne by congruence. reflexivity.
    - rewrite copy_field_ne by congruence.
      rewrite (copy_stripped_ne _ _ _ _ _ k H3) by congruence.
      rewrite (copy_stripped_ne _ _ _ _ _ k H2) by congruence.
      rewrite copy_field_ne by congruence.
      rewrite (copy_stripped_ne _ _ _ _ _ k H1) by congruence. reflexivity. }
  assert (Hbase : ∀ k, k ≠ "mmsi" →
            ({[ "mmsi" := default PyNone (assoc "mmsi" d) ]} : gmap string pyval) !! k
            = None).
  { intros k Hk. apply lookup_singleton_ne. congruence. }
  assert (Hname : vd1 !! "name" = stripped <$> assoc "shipname" d
                  ∧ ∀ v, assoc "shipname" d = Some v → is_text v = true).
  { apply (copy_stripped_eq _ _ _ _ _ H1).
    rewrite !copy_field_ne by discriminate. apply Hbase. discriminate. }
  assert (Hcall : vd2 !! "callsign" = stripped <$> assoc "callsign" d
                  ∧ ∀ v, assoc "callsign" d = Some v → is_text v = true).
  { apply (copy_stripped_eq _ _ _ _ _ H2).
    rewrite copy_field_ne by discriminate.
    rewrite (copy_stripped_ne _ _ _ _ _ "callsign" H1) by discriminate.
    rewrite !copy_field_ne by discriminate. apply Hbase. discriminate. }
  assert (Hdest : vd3 !! "destination" = stripped <$> assoc "destination" d
                  ∧ ∀ v, assoc "destination" d = Some v → is_text v = true).
  { apply (copy_stripped_eq _ _ _ _ _ H3).
    rewrite (copy_stripped_ne _ _ _ _ _ "destination" H2) by discriminate.
    rewrite copy_field_ne by discriminate.
    rewrite (copy_stripped_ne _ _ _ _ _ "destination" H1) by discriminate.
    rewrite !copy_field_ne by discriminate. apply Hbase. discriminate. }
  repeat split.
  - rewrite Hthrough. simpl. rewrite !copy_field_ne by discriminate.
    apply lookup_singleton_eq.
  - rewrite Hthrough. simpl. rewrite !copy_field_ne by discriminate.
    apply copy_field_eq. apply Hbase. discriminate.
  - rewrite Hthrough. simpl. rewrite !copy_field_ne by discriminate.
    apply copy_field_eq. rewrite copy_field_ne by discriminate.
    apply Hbase. discriminate.
  - rewrite Hthrough. simpl. rewrite !copy_field_ne by discriminate.
    apply copy_field_eq. rewrite !copy_field_ne by discriminate.
    apply Hbase. discriminate.
  - rewrite Hthrough. simpl. rewrite !copy_field_ne by discriminate.
    apply copy_field_eq. rewrite !copy_field_ne by discriminate.
    apply Hbase. discriminate.
  - rewrite Hthrough. simpl.
    apply copy_field_eq. rewrite !copy_field_ne by discriminate.
    apply Hbase. discriminate.
  - rewrite Hthrough. simpl. apply copy_field_eq.
    rewrite (copy_stripped_ne _ _ _ _ _ "vessel_type" H1) by discriminate.
    rewrite !copy_field_ne by discriminate. apply Hbase. discriminate.
  - apply copy_field_eq.
    rewrite (copy_stripped_ne _ _ _ _ _ "nav_status" H3) by discriminate.
    rewrite (copy_stripped_ne _ _ _ _ _ "nav_status" H2) by discriminate.
    rewrite copy_field_ne by discriminate.
    rewrite (copy_stripped_ne _ _ _ _ _ "nav_status" H1) by discriminate.
    rewrite !copy_field_ne by discriminate. apply Hbase. discriminate.
  - unfold text_fields in H.
    repeat (apply elem_of_cons in H as [H|H]); try (inversion H; fail);
      injection H as -> ->; rewrite Hthrough; simpl;
      [apply Hname | apply Hcall | apply Hdest].
  - unfold text_fields in H.
    repeat (apply elem_of_cons in H as [H|H]); try (inversion H; fail);
      injection H as -> ->; [apply Hname | apply Hcall | apply Hdest].
  - intros k Hk. rewrite !not_elem_of_cons in Hk.
    destruct Hk as (K1 & K2 & K3 & K4 & K5 & K6 & K7 & K8 & K9 & K10 & K11 & _).
    rewrite Hthrough. repeat case_bool_decide; try congruence.
    rewrite !copy_field_ne by congruence. apply Hbase. exact K1.
Qed.

Lemma vessel_data_of_fields_witness :
  let d := [ ("mmsi", PyStr "123456789"); ("shipname", PyStr "TEST VESSEL ") ] in
  let vd : gmap string pyval :=
    <["name" := PyStr "TEST VESSEL"]> {[ "mmsi" := PyStr "123456789" ]} in
  vd !! "mmsi" = Some (default PyNone (assoc "mmsi" d))
  ∧ vd !! "name" = stripped <$> assoc "shipname" d.
Proof.
  intros d vd.
  destruct (vessel_data_of_fields d vd) as (Hm & _ & _ & _ & _ & _ & _ & _ & Ht & _).
  - vm_compute. reflexivity.
  - split; [exact Hm|]. apply (Ht "shipname" "name"). unfold text_fields.
    apply elem_of_cons. left. reflexivity.
Defined.

(** ** The loop, line by line *)

Section Loop.

Variable utc : nat -> Z.
Variable repr : pyval -> string.
Variable json_loads : string -> result pyval.

(** No exception leaves an iteration: the handlers of the inner [try]
    take them all. *)
Lemma process_line_ok line st :
  (process_line utc repr json_loads line st).1 = Ok tt.
Proof.
  unfold process_line.
  destruct (negb (truthy (PyStr (strip line))) || startswith "#" (strip line));
    [reflexivity|].
  unfold try_body.
  destruct (json_loads (strip line) ≫= vessel_data_of) as [vd|[]]; try reflexivity.
  destruct (truthy (get vd "mmsi" PyNone)); [|reflexivity].
  destruct ((message_count st + 1) mod 100 =? 0); reflexivity.
Qed.

Lemma main_loop_cons line lines st :
  main_loop utc repr json_loads (line :: lines) st
  = main_loop utc repr json_loads lines (process_line utc repr json_loads line st).2.
Proof.
  simpl. pose proof (process_line_ok line st) as Hok.
  destruct (process_line utc repr json_loads line st) as [[[]|e] st']; simpl in *;
    [reflexivity | discriminate].
Qed.

(** X9. The stream can be cut anywhere: processing two batches of lines
    one after the other gives the state that processing them as one stream
    gives, so no line, whatever it holds, ends the loop for those after it. *)
Theorem main_loop_app l1 l2 st :
  main_loop utc repr json_loads (l1 ++ l2) st
  = main_loop utc repr json_loads l2 (main_loop utc repr json_loads l1 st).
Proof.
  revert st. induction l1 as [|line l1 IH]; intros st; [reflexivity|].
  rewrite <- app_comm_cons, !main_loop_cons. apply IH.
Qed.



(** X11. A record in which one of shipname, callsign and destination is
    present but is no text (null, a number, an array) is dropped as a
    whole, its position included: the failure is logged, the vessel table,
    the diagnostics and the counter stay as they were. *)
Theorem non_text_field_drops_message line d src dst v st :
  strip line ≠ "" →
  startswith "#" (strip line) = false →
  json_loads (strip line) = Ok (PyDict d) →
  (src, dst) ∈ text_fields →
  assoc src d = Some v →
  is_text v = false →
  ∃ ty,
    process_line utc repr json_loads line st
    = (Ok tt,
       mk_loop (log_error utc ("Error processing message: "
                               +:+ exn_message (AttributeError ty "strip"))
                  (st_world st)) (message_count st))
    ∧ vessels (st_world (process_line utc repr json_loads line st).2)
      = vessels (st_world st)
    ∧ diagnostics (st_world (process_line utc repr json_loads line st).2)
      = diagnostics (st_world st).
Proof.
  intros Hnb Hnc Hd Hin Hv Hnt.
  assert (Hraise : ∃ ty, vessel_data_of (PyDict d) = Raise (AttributeError ty "strip")).
  { destruct (vessel_data_of (PyDict d)) as [vd|e] eqn:E.
    - exfalso. pose proof (vessel_data_of_text d vd src dst E Hin v Hv). congruence.
    - revert E. unfold vessel_data_of.
      destruct (copy_stripped_total d "shipname" "name"
        (copy_field d "heading" "heading"
           (copy_field d "course" "course"
              (copy_field d "speed" "speed"
                 (copy_field d "lon" "longitude"
                    (copy_field d "lat" "latitude"
                       {[ "mmsi" := default PyNone (assoc "mmsi" d) ]}))))))
        as [[vd1 ->]|[ty ->]]; [|intros [= <-]; eauto].
      rewrite bind_Ok.
      destruct (copy_stripped_total d "callsign" "callsign"
                  (copy_field d "shiptype" "vessel_type" vd1))
        as [[vd2 ->]|[ty ->]]; [|intros [= <-]; eauto].
      rewrite bind_Ok.
      destruct (copy_stripped_total d "destination" "destination" vd2)
        as [[vd3 ->]|[ty ->]]; [|intros [= <-]; eauto].
      rewrite bind_Ok. discriminate. }
  destruct Hraise as [ty Hty]. exists ty.
  assert (Hpl : process_line utc repr json_loads line st
                = (Ok tt,
                   mk_loop (log_error utc ("Error processing message: "
                                           +:+ exn_message (AttributeError ty "strip"))
                              (st_world st)) (message_count st))).
  { unfold process_line.
    assert (Hb : truthy (PyStr (strip line)) = true).
    { simpl. case_bool_decide; [contradiction | reflexivity]. }
    rewrite Hb, Hnc. simpl negb. cbv iota. unfold try_body.
    rewrite Hd, bind_Ok, Hty. reflexivity. }
  rewrite Hpl. split; [reflexivity|]. cbn [snd st_world].
  split; [apply log_error_vessels | apply log_error_diagnostics].
Qed.


Lemma process_line_status line st :
  diagnostics (st_world (process_line utc repr json_loads line st).2)
    !! "ais_catcher_status"
  = diagnostics (st_world st) !! "ais_catcher_status".
Proof.
  unfold process_line.
  destruct (negb (truthy (PyStr (strip line))) || startswith "#" (strip line));
    [reflexivity|].
  unfold try_body.
  destruct (json_loads (strip line) ≫= vessel_data_of) as [vd|[]];
    try reflexivity.
  destruct (truthy (get vd "mmsi" PyNone)); [|reflexivity].
  destruct ((message_count st + 1) mod 100 =? 0); simpl.
  - rewrite lookup_insert_ne by discriminate.
    apply update_vessel_diagnostics_other. discriminate.
  - apply update_vessel_diagnostics_other. discriminate.
Qed.

Lemma main_loop_status lines st :
  diagnostics (st_world (main_loop utc repr json_loads lines st)) !! "ais_catcher_status"
  = diagnostics (st_world st) !! "ais_catcher_status".
Proof.
  revert st. induction lines as [|line lines IH]; intros st; [reflexivity|].
  rewrite main_loop_cons, IH. apply process_line_status.
Qed.

(** X13. Once the store is initialised and the decoder is launched, the
    capture does not exit and the status diagnostic reads Running, stamped
    at start-up, after any stream of lines: nothing a line holds makes the
    loop write the status again. *)
Theorem main_keeps_running lines w :
  ∃ w', main utc repr json_loads true (Ok lines) w = (None, w')
        ∧ diagnostics w' !! "ais_catcher_status"
          = Some ("Running", stamp (utc (ticks w))).
Proof.
  unfold main. simpl negb. cbv iota. eexists. split; [reflexivity|].
  rewrite main_loop_status. simpl. apply lookup_insert_eq.
Qed.

(** X14. Once the store is initialised, the capture exits with status 1
    exactly when the decoder binary is missing or its launch fails, and it
    has then not touched the vessel table. When the binary is missing, the
    status diagnostic reads ERROR: Binary not found and the log ends with
    the line that says where the binary was looked for; when the launch
    fails, the status Running just written is replaced by ERROR: and the
    text of the exception, and the log ends with the line of that failure. *)
Theorem main_startup_failure binary_present launch w :
  let '(exit, w') := main utc repr json_loads binary_present launch w in
  (exit = Some 1 ↔ binary_present = false ∨ ∃ e, launch = Raise e)
  ∧ (exit = Some 1 → vessels w' = vessels w)
  ∧ (binary_present = false →
     fst <$> diagnostics w' !! "ais_catcher_status" = Some "ERROR: Binary not found"
     ∧ ∃ f, files w' !! ERROR_LOG
            = Some (f ++ [log_line utc (ticks w)
                            "AIS-catcher not found at /home/pi/AIS-catcher/build/AIS-catcher"]))
  ∧ (binary_present = true → ∀ e, launch = Raise e →
     fst <$> diagnostics w' !! "ais_catcher_status"
     = Some ("ERROR: " +:+ exn_message e)
     ∧ ∃ f, files w' !! ERROR_LOG
            = Some (f ++ [log_line utc (S (ticks w))
                            ("Failed to start AIS-catcher: " +:+ exn_message e)])).
Proof.
  unfold main. destruct binary_present; simpl negb; cbv iota.
  - destruct launch as [lines|e].
    + split; [split; [discriminate | intros [H|[e H]]; discriminate]|].
      split; [discriminate|]. split; [discriminate|]. intros _ e H. discriminate.
    + split; [split; [eauto | reflexivity]|].
      split; [reflexivity|]. split; [discriminate|]. intros _ e' H.
      injection H as <-. split.
      * rewrite update_diagnostic_entry, lookup_insert_eq. reflexivity.
      * rewrite update_diagnostic_files.
        destruct (log_error_log utc
                    ("Failed to start AIS-catcher: " +:+ exn_message e)
                    (update_diagnostic utc repr "ais_catcher_status" (PyStr "Running") w))
          as (f & Hf & _).
        exists f. exact Hf.
  - split; [split; [eauto | reflexivity]|].
    split; [reflexivity|]. split; [|discriminate]. intros _. split.
    + rewrite update_diagnostic_entry, lookup_insert_eq. reflexivity.
    + rewrite update_diagnostic_files.
      destruct (log_error_log utc
                  "AIS-catcher not found at /home/pi/AIS-catcher/build/AIS-catcher" w)
        as (f & Hf & _).
      exists f. exact Hf.
Qed.

End Loop.

Lemma non_text_field_drops_message_witness :
  ∃ ty,
    process_line demo_clock demo_repr script_json_loads null_name_line
      (mk_loop demo_world 0)
    = (Ok tt,
       mk_loop (log_error demo_clock
                  ("Error processing message: "
                   +:+ exn_message (AttributeError ty "strip")) demo_world) 0)
    ∧ vessels (st_world (process_line demo_clock demo_repr script_json_loads
                           null_name_line (mk_loop demo_world 0)).2)
      = vessels demo_world
    ∧ diagnostics (st_world (process_line demo_clock demo_repr script_json_loads
                               null_name_line (mk_loop demo_world 0)).2)
      = diagnostics demo_world.
Proof.
  apply (non_text_field_drops_message demo_clock demo_repr script_json_loads
           null_name_line
           [ ("mmsi", PyInt 244660000); ("lat", PyFloat (Q2Qc 10)); ("shipname", PyNone) ]
           "shipname" "name" PyNone (mk_loop demo_world 0)).
  - vm_compute. discriminate.
  - vm_compute. reflexivity.
  - vm_compute. reflexivity.
  - apply elem_of_cons. left. reflexivity.
  - reflexivity.
  - reflexivity.
Defined.



(** ** The list request and the clean-up *)

Lemma filter_implied {A} (p q : A -> bool) (l : list A) :
  (∀ x, p x = true → q x = true) →
  List.filter p (List.filter q l) = List.filter p l.
Proof.
  intros Hpq. induction l as [|x l IH]; [reflexivity|]. simpl.
  destruct (q x) eqn:Hq; simpl.
  - rewrite IH. reflexivity.
  - destruct (p x) eqn:Hp; [|exact IH]. apply Hpq in Hp. congruence.
Qed.

Lemma filter_excluded {A} (p q : A -> bool) (l : list A) :
  (∀ x, q x = true → p x = false) →
  List.filter p (List.filter q l) = [].
Proof.
  intros Hpq. induction l as [|x l IH]; [reflexivity|]. simpl.
  destruct (q x) eqn:Hq; simpl; [|exact IH].
  rewrite (Hpq x Hq). exact IH.
Qed.

Lemma recent_not_stale cut r :
  recent_with_position cut r = true → negb (stale cut r) = true.
Proof.
  unfold recent_with_position, stale, sql_gt, sql_lt. intros H.
  apply andb_true_iff in H as [_ H].
  destruct (sql_compare (r last_updated) (SText cut)) as [[]|]; try discriminate.
  reflexivity.
Qed.

(** X15. The clean-up never takes out a vessel that the list request made
    at the same instant returns: the list, with or without a reference
    position, is the same before and after the clean-up. *)
Theorem cleanup_keeps_listed distance_nm bearing_deg my_lat my_lon now w :
  get_vessels distance_nm bearing_deg my_lat my_lon now (cleanup_old_data now w).2
  = get_vessels distance_nm bearing_deg my_lat my_lon now w.
Proof.
  unfold get_vessels, select_vessels, cleanup_old_data. simpl.
  rewrite filter_implied; [reflexivity|]. intros r. apply recent_not_stale.
Qed.

(** X16. A second clean-up at the same instant deletes nothing and reports
    0: the first took out every stale row. *)
Theorem cleanup_idempotent now w :
  cleanup_old_data now (cleanup_old_data now w).2
  = (PyDict [("deleted", PyInt 0)], (cleanup_old_data now w).2).
Proof.
  unfold cleanup_old_data. simpl. unfold set_vessels. simpl.
  rewrite (filter_excluded (stale (cutoff now))).
  2:{ intros r H. apply negb_true_iff in H. exact H. }
  rewrite (filter_implied (fun r => negb (stale (cutoff now) r))) by trivial.
  reflexivity.
Qed.

(** X17. Both comparisons with the cutoff are strict: a vessel whose last
    update is exactly 48 hours before the request is not listed, and the
    clean-up made at that instant keeps it. *)
Theorem exactly_48h_hidden_not_deleted t r w :
  r last_updated = SText (stamp t) →
  In r (vessels w) →
  ¬ In r (select_vessels (t + hours 48) (vessels w))
  ∧ In r (vessels (cleanup_old_data (t + hours 48) w).2).
Proof.
  intros Hlu Hin. split.
  - intros Hsel.
    destruct (select_vessels_spec (t + hours 48) (vessels w)) as [Hperm _].
    apply (Permutation_in _ Hperm) in Hsel. apply filter_In in Hsel as [_ Hw].
    unfold recent_with_position in Hw. rewrite cutoff_after_48h, Hlu in Hw.
    unfold sql_gt in Hw. simpl in Hw. rewrite string_compare_refl in Hw.
    rewrite andb_false_r in Hw. discriminate.
  - unfold cleanup_old_data. simpl. apply filter_In. split; [exact Hin|].
    unfold stale, sql_lt. rewrite cutoff_after_48h, Hlu. simpl.
    rewrite string_compare_refl. reflexivity.
Qed.

Lemma exactly_48h_hidden_not_deleted_witness :
  let t := datetime 2024 1 5 11 0 0 125000 in
  ¬ In demo_row (select_vessels (t + hours 48) (vessels demo_world))
  ∧ In demo_row (vessels (cleanup_old_data (t + hours 48) demo_world).2).
Proof.
  intros t.
  apply (exactly_48h_hidden_not_deleted t demo_row demo_world).
  - vm_compute. reflexivity.
  - left. reflexivity.
Defined.


Section Reference.

Variable distance_nm : Qc -> Qc -> Qc -> Qc -> Qc.
Variable bearing_deg : Qc -> Qc -> Qc -> Qc -> Qc.

Lemma vessel_entries_one_coordinate my_lat my_lon rows :
  my_lat = None ∨ my_lon = None →
  vessel_entries distance_nm bearing_deg my_lat my_lon rows
  = vessel_entries distance_nm bearing_deg None None rows.
Proof.
  intros H. induction rows as [|r rows IH]; [reflexivity|]. simpl.
  rewrite IH. destruct H as [-> | ->]; [reflexivity|].
  destruct my_lat; reflexivity.
Qed.

(** X19. A reference position needs both coordinates: with only one of
    my_lat and my_lon the response is the one of a request without
    reference position, no distance or bearing in it. *)
Theorem one_coordinate_is_ignored c now w :
  get_vessels distance_nm bearing_deg (Some c) None now w
  = get_vessels distance_nm bearing_deg None None now w
  ∧ get_vessels distance_nm bearing_deg None (Some c) now w
    = get_vessels distance_nm bearing_deg None None now w.
Proof.
  unfold get_vessels. split; rewrite vessel_entries_one_coordinate; auto.
Qed.



End Reference.


(** ** The diagnostics request, served without an outer fault *)

Section DiagnosticsStatus.

Variable fromisoformat : string -> option Z.
Variable fault : step -> option exn.

(** [seconds_ago] is always computed: its handler takes every exception. *)
Lemma seconds_since_ok now s :
  ∃ n, seconds_since fromisoformat fault now s = Ok n
       ∧ (s = "Never" → n = 999999)
       ∧ (fromisoformat (remove_char "Z" s) = None → n = 999999)
       ∧ (is_Some (fault ReadClock) → n = 999999).
Proof.
  unfold seconds_since, try_except, at_step.
  case_bool_decide as Hs; [eexists; split; [reflexivity|]; auto|].
  destruct (fromisoformat (remove_char "Z" s)) as [t|];
    [|eexists; split; [reflexivity|]; auto].
  destruct (fault ReadClock) as [e|] eqn:Hc.
  - eexists. split; [reflexivity|]. auto.
  - rewrite bind_Ok. eexists. split; [reflexivity|].
    split; [contradiction|]. split; [discriminate|]. intros [e He]. discriminate.
Qed.

(** The response when the host raises at no place outside the inner
    handlers. *)
Lemma get_diagnostics_status h now w :
  no_fault_at fault outer_steps = true →
  ∃ secs,
    seconds_since fromisoformat fault now
      (default "Never" ((fst <$> diagnostics w) !! "last_message_time")) = Ok secs
    ∧ get_diagnostics fromisoformat fault h now w
      = Ok (PyDict
          [ ("vessel_count",
             PyInt (Z.of_nat (length (List.filter (fun r => is_not_null (r latitude))
                                         (vessels w)))));
            ("db_size_mb",
             match db_size h with Some n => PyFloat (round_mb n) | None => PyInt 0 end);
            ("last_message",
             PyStr (default "Never" ((fst <$> diagnostics w) !! "last_message_time")));
            ("seconds_since_message", PyInt secs);
            ("rtl_sdr_connected", PyBool (lsusb_status h =? 0));
            ("ais_catcher_status",
             PyStr (default "Unknown" ((fst <$> diagnostics w) !! "ais_catcher_status")));
            ("total_messages",
             match (fst <$> diagnostics w) !! "total_messages" with
             | Some v => PyStr v
             | None => PyInt 0
             end);
            ("recent_errors",
             PyList (map PyStr (last_n 3 (recent_errors fault (files w))))) ]).
Proof.
  intros Hnf. unfold no_fault_at, outer_steps in Hnf. simpl in Hnf.
  destruct (fault Connect) eqn:H1; [discriminate|].
  destruct (fault CountVessels) eqn:H2; [discriminate|].
  destruct (fault StatStore) eqn:H3; [discriminate|].
  destruct (fault SelectDiagnostics) eqn:H4; [discriminate|].
  destruct (fault Enumerate) eqn:H5; [discriminate|].
  destruct (fault Respond) eqn:H6; [discriminate|].
  destruct (seconds_since_ok now
              (default "Never" ((fst <$> diagnostics w) !! "last_message_time")))
    as (secs & Hsecs & _).
  exists secs. split; [exact Hsecs|].
  unfold get_diagnostics, diagnostics_body, at_step, try_except.
  rewrite H1, H2, H3, H4, H5, H6, !bind_Ok. cbv zeta. rewrite Hsecs, bind_Ok.
  reflexivity.
Qed.

(** X21. What the response shows for what was never recorded: without a
    last-message entry, Never and 999999 seconds; without a status entry,
    Unknown; without a counter entry the integer 0, while a counter entry
    is shown as the text it was stored as; without a log, no errors. *)
Theorem get_diagnostics_defaults h now w :
  no_fault_at fault outer_steps = true →
  ∃ d, get_diagnostics fromisoformat fault h now w = Ok (PyDict d)
    ∧ assoc "error" d = None
    ∧ (diagnostics w !! "last_message_time" = None →
       assoc "last_message" d = Some (PyStr "Never")
       ∧ assoc "seconds_since_message" d = Some (PyInt 999999))
    ∧ (diagnostics w !! "ais_catcher_status" = None →
       assoc "ais_catcher_status" d = Some (PyStr "Unknown"))
    ∧ (diagnostics w !! "total_messages" = None →
       assoc "total_messages" d = Some (PyInt 0))
    ∧ (∀ v t, diagnostics w !! "total_messages" = Some (v, t) →
              assoc "total_messages" d = Some (PyStr v))
    ∧ (files w !! ERROR_LOG = None → assoc "recent_errors" d = Some (PyList [])).
Proof.
  intros Hnf. destruct (get_diagnostics_status h now w Hnf) as (secs & Hsecs & ->).
  eexists. split; [reflexivity|]. split; [reflexivity|].
  split; [|split; [|split; [|split]]].
  - intros Hnone. rewrite lookup_fmap, Hnone in Hsecs |- *. simpl in Hsecs |- *.
    split; [reflexivity|].
    destruct (seconds_since_ok now "Never") as (n & Hn & Hnever & _).
    rewrite Hn in Hsecs. injection Hsecs as <-. rewrite Hnever; reflexivity.
  - intros Hnone. simpl. rewrite lookup_fmap, Hnone. reflexivity.
  - intros Hnone. simpl. rewrite lookup_fmap, Hnone. reflexivity.
  - intros v t Hv. simpl. rewrite lookup_fmap, Hv. reflexivity.
  - intros Hnone. simpl. unfold recent_errors. rewrite Hnone. reflexivity.
Qed.


End DiagnosticsStatus.

Lemma get_diagnostics_defaults_witness :
  ∃ d, get_diagnostics demo_fromisoformat (fun _ => None) (mk_host None 1)
         (demo_clock 0) demo_world = Ok (PyDict d)
    ∧ assoc "error" d = None
    ∧ assoc "last_message" d = Some (PyStr "Never")
    ∧ assoc "seconds_since_message" d = Some (PyInt 999999)
    ∧ assoc "total_messages" d = Some (PyInt 0).
Proof.
  destruct (get_diagnostics_defaults demo_fromisoformat (fun _ => None)
              (mk_host None 1) (demo_clock 0) demo_world eq_refl)
    as (d & Hd & He & Hlast & _ & Htotal & _).
  exists d. split; [exact Hd|]. split; [exact He|].
  destruct (Hlast eq_refl) as [H1 H2].
  split; [exact H1|]. split; [exact H2 | exact (Htotal eq_refl)].
Defined.


(** ** From the log to the diagnostics response *)

Lemma one_line_app s t : one_line (s +:+ t) = one_line s && one_line t.
Proof.
  induction s as [|c s IH]; [reflexivity|].
  rewrite app_cons. simpl. rewrite IH, andb_assoc. reflexivity.
Qed.

Lemma one_line_zero_pad w n acc : one_line (zero_pad w n acc) = one_line acc.
Proof.
  revert n acc. induction w as [|w IH]; intros n acc; simpl; [reflexivity|].
  rewrite IH. simpl.
  assert (H10 : ascii_of_nat (Z.to_nat (48 + n mod 10)) ≠ ascii_of_nat 10).
  { apply digit_char_ne. left. vm_compute. reflexivity. }
  assert (H13 : ascii_of_nat (Z.to_nat (48 + n mod 10)) ≠ ascii_of_nat 13).
  { apply digit_char_ne. left. vm_compute. reflexivity. }
  rewrite !bool_decide_eq_false_2 by assumption. reflexivity.
Qed.

Lemma one_line_isoformat t : one_line (isoformat t) = true.
Proof.
  unfold isoformat. destruct (ord2ymd (t / US_PER_DAY + 1)) as [[y m] d].
  rewrite !one_line_app, !one_line_zero_pad.
  destruct (t mod US_PER_DAY mod US_PER_SECOND =? 0); [reflexivity|].
  rewrite one_line_app, one_line_zero_pad. reflexivity.
Qed.

Lemma readlines_one_line cur body :
  one_line body = true → readlines cur (body +:+ NL) = [cur +:+ body +:+ NL].
Proof.
  revert cur. induction body as [|c body IH]; intros cur Hb.
  - reflexivity.
  - simpl in Hb. apply andb_true_iff in Hb as [Hc Hb].
    apply andb_true_iff in Hc as [H10 H13].
    apply negb_true_iff in H10, H13.
    rewrite app_cons. simpl readlines. rewrite H10, H13, (IH _ Hb).
    rewrite string_app_assoc. reflexivity.
Qed.

Lemma readlines_app_nl s : ∀ cur t,
  readlines cur ((s +:+ NL) +:+ t) = readlines cur (s +:+ NL) ++ readlines "" t.
Proof.
  remember (String.length s) as n eqn:Hn. revert s Hn.
  induction n as [n IH] using lt_wf_ind. intros s Hn cur t.
  destruct s as [|c s1].
  - reflexivity.
  - rewrite !app_cons. simpl readlines.
    assert (IH1 : ∀ cur, readlines cur ((s1 +:+ NL) +:+ t)
                         = readlines cur (s1 +:+ NL) ++ readlines "" t).
    { intros cur'. apply (IH (String.length s1)); [subst n; simpl; lia | reflexivity]. }
    case_bool_decide as H10; [rewrite IH1; reflexivity|].
    case_bool_decide as H13; [|apply IH1].
    destruct s1 as [|c' s2].
    + reflexivity.
    + rewrite !app_cons. case_bool_decide as H10'.
      * rewrite (IH (String.length s2)); [reflexivity | subst n; simpl; lia | reflexivity].
      * rewrite <- !app_cons, IH1. reflexivity.
Qed.

Lemma concat_snoc f x : String.concat "" (f ++ [x]) = String.concat "" f +:+ x.
Proof.
  induction f as [|h f IH]; [reflexivity|].
  destruct f as [|h' f'].
  - reflexivity.
  - change (String.concat "" ((h :: h' :: f') ++ [x]))
      with (h +:+ "" +:+ String.concat "" ((h' :: f') ++ [x])).
    rewrite IH.
    change (String.concat "" (h :: h' :: f'))
      with (h +:+ "" +:+ String.concat "" (h' :: f')).
    rewrite !string_app_assoc. reflexivity.
Qed.

Lemma last_n_snoc {A} n (l : list A) x : last_n (S n) (l ++ [x]) = last_n n l ++ [x].
Proof.
  unfold last_n. rewrite List.length_app. simpl length.
  replace (length l + 1 - S n)%nat with (length l - n)%nat by lia.
  apply drop_app_le. lia.
Qed.

Lemma last_n_length {A} n (l : list A) : (length (last_n n l) <= n)%nat.
Proof. unfold last_n. rewrite length_drop. lia. Qed.

(** The lines of a log that ends with a one-line text and a line feed. *)
Lemma readlines_log prev body :
  complete prev → one_line body = true →
  readlines "" (prev +:+ body +:+ NL) = readlines "" prev ++ [body +:+ NL].
Proof.
  intros [->|[s' ->]] Hb.
  - change ("" +:+ body +:+ NL) with (body +:+ NL).
    rewrite (readlines_one_line "" body Hb). reflexivity.
  - rewrite readlines_app_nl, (readlines_one_line "" body Hb). reflexivity.
Qed.

Section LoggedError.

Variable utc : nat -> Z.
Variable fromisoformat : string -> option Z.
Variable fault : step -> option exn.

(** X23. What the capture logs, the diagnostics response shows: after
    [log_error] has written a one-line message to a log whose text was
    empty or ended with a line feed, a request served without fault lists
    at most three recent errors, the last of them the line just written,
    stripped. *)
Theorem logged_error_is_reported msg w h now :
  no_fault_at fault (ReadLog :: outer_steps) = true →
  one_line msg = true →
  (∀ f, files w !! ERROR_LOG = Some f → complete (String.concat "" f)) →
  ∃ d errs,
    get_diagnostics fromisoformat fault h now (log_error utc msg w) = Ok (PyDict d)
    ∧ assoc "recent_errors" d
      = Some (PyList (errs ++ [PyStr (strip (log_line utc (ticks w) msg))]))
    ∧ (length errs <= 2)%nat.
Proof.
  intros Hnf Hmsg Hprev.
  assert (Hlog : fault ReadLog = None).
  { unfold no_fault_at in Hnf. simpl in Hnf. destruct (fault ReadLog); [discriminate|].
    reflexivity. }
  assert (Hnf' : no_fault_at fault outer_steps = true).
  { unfold no_fault_at in *. simpl in Hnf. rewrite Hlog in Hnf. exact Hnf. }
  destruct (get_diagnostics_status fromisoformat fault h now (log_error utc msg w) Hnf')
    as (secs & _ & ->).
  destruct (log_error_log utc msg w) as (f & Hf & Hwas).
  assert (Hcomplete : complete (String.concat "" f)).
  { destruct Hwas as [->|Hwas]; [left; reflexivity | exact (Hprev f Hwas)]. }
  assert (Hbody : ∃ body, log_line utc (ticks w) msg = body +:+ NL
                          ∧ one_line body = true).
  { exists ("[" +:+ isoformat (utc (ticks w)) +:+ "] " +:+ msg). split.
    - unfold log_line. rewrite !string_app_assoc. reflexivity.
    - rewrite !one_line_app, one_line_isoformat, Hmsg. reflexivity. }
  destruct Hbody as (body & Hline & Hone).
  assert (Herrs : recent_errors fault (files (log_error utc msg w))
                  = map strip (last_n 9 (readlines "" (String.concat "" f)))
                    ++ [strip (log_line utc (ticks w) msg)]).
  { unfold recent_errors. rewrite Hf, Hlog, concat_snoc, Hline.
    rewrite (readlines_log _ body Hcomplete Hone), last_n_snoc, map_app.
    reflexivity. }
  eexists.
  exists (map PyStr (last_n 2 (map strip (last_n 9 (readlines ""
                                                        (String.concat "" f)))))).
  split; [reflexivity|]. split.
  - rewrite Herrs, last_n_snoc, map_app. reflexivity.
  - rewrite List.length_map. apply last_n_length.
Qed.

End LoggedError.

Lemma logged_error_is_reported_witness :
  ∃ d errs,
    get_diagnostics demo_fromisoformat (fun _ => None) (mk_host None 1) (demo_clock 1)
      (log_error demo_clock "Failed to update vessel 244660000: boom  " demo_world)
    = Ok (PyDict d)
    ∧ assoc "recent_errors" d
      = Some (PyList (errs ++ [PyStr (strip (log_line demo_clock (ticks demo_world)
                                               "Failed to update vessel 244660000: boom  "))]))
    ∧ (length errs <= 2)%nat.
Proof.
  apply (logged_error_is_reported demo_clock demo_fromisoformat (fun _ => None)
           "Failed to update vessel 244660000: boom  " demo_world (mk_host None 1)
           (demo_clock 1)).
  - reflexivity.
  - reflexivity.
  - intros f Hf. discriminate.
Defined.

(** ** From the first message to the list *)

Section Nameless.

Variable utc : nat -> Z.
Variable repr : pyval -> string.


End Nameless.


(** ** From a diagnostic written to the diagnostics response *)

Section DiagnosticRoundTrip.

Variable utc : nat -> Z.
Variable repr : pyval -> string.
Variable fromisoformat : string -> option Z.
Variable fault : step -> option exn.

(** X25. A diagnostic is stored as text and reported as text: after
    [update_diagnostic] has written a value under ais_catcher_status or
    total_messages, a request served without outer fault reports [str] of
    that value, so a counter written as the integer 300 is reported as the
    string 300. *)
Theorem diagnostic_round_trip key v w h now :
  no_fault_at fault outer_steps = true →
  key ∈ ["ais_catcher_status"; "total_messages"] →
  ∃ d, get_diagnostics fromisoformat fault h now (update_diagnostic utc repr key v w)
       = Ok (PyDict d)
       ∧ assoc key d = Some (PyStr (str repr v)).
Proof.
  intros Hnf Hkey.
  destruct (get_diagnostics_status fromisoformat fault h now
              (update_diagnostic utc repr key v w) Hnf) as (secs & _ & ->).
  eexists. split; [reflexivity|].
  rewrite update_diagnostic_entry.
  repeat (apply elem_of_cons in Hkey as [->|Hkey]); [| |inversion Hkey].
  - change (assoc "ais_catcher_status" ?l)
      with (Some (PyStr (default "Unknown"
              ((fst <$> <["ais_catcher_status" := (str repr v, stamp (utc (ticks w)))]>
                          (diagnostics w)) !! "ais_catcher_status")))).
    rewrite lookup_fmap, lookup_insert_eq. reflexivity.
  - change (assoc "total_messages" ?l)
      with (Some (match (fst <$> <["total_messages" := (str repr v, stamp (utc (ticks w)))]>
                                   (diagnostics w)) !! "total_messages" with
                  | Some v => PyStr v
                  | None => PyInt 0
                  end)).
    rewrite lookup_fmap, lookup_insert_eq. reflexivity.
Qed.

End DiagnosticRoundTrip.

Lemma diagnostic_round_trip_witness :
  ∃ d, get_diagnostics demo_fromisoformat (fun _ => None) (mk_host None 1) (demo_clock 1)
         (update_diagnostic demo_clock demo_repr "total_messages" (PyInt 300) demo_world)
       = Ok (PyDict d)
       ∧ assoc "total_messages" d = Some (PyStr (str demo_repr (PyInt 300))).
Proof.
  apply (diagnostic_round_trip demo_clock demo_repr demo_fromisoformat (fun _ => None)
           "total_messages" (PyInt 300) demo_world (mk_host None 1) (demo_clock 1)).
  - reflexivity.
  - apply elem_of_cons. right. apply elem_of_cons. left. reflexivity.
Defined.

(** ** When an upsert fails *)


(** ** The vessel count and the list *)

Lemma filter_length_implied {A} (p q : A -> bool) (l : list A) :
  (∀ x, p x = true → q x = true) →
  (length (List.filter p l) <= length (List.filter q l))%nat.
Proof.
  intros Hpq. induction l as [|x l IH]; [reflexivity|]. simpl.
  destruct (p x) eqn:Hp.
  - rewrite (Hpq x Hp). simpl. apply le_n_S. exact IH.
  - destruct (q x); simpl; [apply Nat.le_le_succ_r|]; exact IH.
Qed.

Section VesselCount.

Variable distance_nm : Qc -> Qc -> Qc -> Qc -> Qc.
Variable bearing_deg : Qc -> Qc -> Qc -> Qc -> Qc.
Variable fromisoformat : string -> option Z.
Variable fault : step -> option exn.

(** X27. The vessel count of the diagnostics is an upper bound of the
    list: it counts every row with a latitude, of any age and with or
    without longitude, so a list request made on the same store at any
    instant returns at most that many vessels. *)
Theorem vessel_count_bounds_list h now now' w :
  no_fault_at fault outer_steps = true →
  ∃ d n vs,
    get_diagnostics fromisoformat fault h now w = Ok (PyDict d)
    ∧ assoc "vessel_count" d = Some (PyInt n)
    ∧ get_vessels distance_nm bearing_deg None None now' w = Ok (PyList vs)
    ∧ Z.of_nat (length vs) <= n <= Z.of_nat (length (vessels w)).
Proof.
  intros Hnf.
  destruct (get_diagnostics_status fromisoformat fault h now w Hnf) as (secs & _ & ->).
  rewrite get_vessels_without_reference.
  eexists. eexists. eexists. split; [reflexivity|]. split; [reflexivity|].
  split; [reflexivity|].
  destruct (select_vessels_spec now' (vessels w)) as [Hperm _].
  rewrite List.length_map, (Permutation_length Hperm).
  split; apply inj_le.
  - apply filter_length_implied. intros r Hr. unfold recent_with_position in Hr.
    apply andb_true_iff in Hr as [Hr _]. apply andb_true_iff in Hr as [Hr _]. exact Hr.
  - apply List.filter_length_le.
Qed.

End VesselCount.

Lemma vessel_count_bounds_list_witness :
  ∃ d n vs,
    get_diagnostics demo_fromisoformat (fun _ => None) (mk_host None 1) (demo_clock 0)
      two_vessel_world = Ok (PyDict d)
    ∧ assoc "vessel_count" d = Some (PyInt n)
    ∧ get_vessels demo_distance demo_bearing None None (demo_clock 0) two_vessel_world
      = Ok (PyList vs)
    ∧ Z.of_nat (length vs) <= n <= Z.of_nat (length (vessels two_vessel_world)).
Proof.
  apply (vessel_count_bounds_list demo_distance demo_bearing demo_fromisoformat
           (fun _ => None) (mk_host None 1) (demo_clock 0) (demo_clock 0)
           two_vessel_world).
  reflexivity.
Defined.
